(** * Spilldataserver: the sensor-data service of [src/app.py]

    A shallow embedding of the Flask application: the two request handlers
    [receive_sensor_data] and [get_latest_data], the storage function
    [save_data] with its two backends (the PostgreSQL table [sensor_data] and
    the directory [data]), and the parts of Python's [datetime] and [str]
    that the file backend relies on.  Handlers are functions from a [world]
    to a response and a new [world]; what the program cannot decide itself
    (the clocks, failures of the database or of the file system) is read from
    an [oracle] given to every call. *)

From Stdlib Require Import ZArith QArith String Ascii List Lia.
From stdpp Require Import base strings gmap list.

Local Open Scope string_scope.
Local Open Scope Z_scope.

(** ** JSON documents

    [request.get_json()] and [json.load] return Python objects built from
    [None], [bool], numbers, [str], [list] and [dict].  The handlers never
    compute with a number, they only pass it on, so a number is kept as the
    rational its literal denotes. *)

#[warnings="-register-all"]
Inductive value : Type :=
  | JNull
  | JBool (b : bool)
  | JNum (q : Q)
  | JStr (s : string)
  | JArr (l : list value)
  | JObj (m : gmap string value).

(** [data.get(key)], which is [None] for a missing key, and
    [data.get(key, default)]. *)
Definition dict_get (data : gmap string value) (key : string) : value :=
  default JNull (data !! key).

Definition dict_get_or (data : gmap string value) (key : string)
    (dflt : value) : value :=
  default dflt (data !! key).

(** [key in data] *)
Definition dict_contains (data : gmap string value) (key : string) : bool :=
  bool_decide (is_Some (data !! key)).

(** ** Python's datetime

    A [datetime] object holds its seven fields.  The calendar functions
    below are those of the [datetime] module ([_is_leap],
    [_days_before_year], [_days_in_month], [_days_before_month],
    [_ymd2ord]); the difference of two datetimes is computed from the
    proleptic Gregorian ordinal of the date, as [datetime.__sub__] does. *)

Record datetime : Type := Datetime {
  year : Z;
  month : Z;
  day : Z;
  hour : Z;
  minute : Z;
  second : Z;
  microsecond : Z
}.

Definition is_leap (y : Z) : bool :=
  (y mod 4 =? 0) && (negb (y mod 100 =? 0) || (y mod 400 =? 0)).

Definition days_before_year (y : Z) : Z :=
  let p := y - 1 in p * 365 + p / 4 - p / 100 + p / 400.

Definition days_in_month (y m : Z) : Z :=
  if (m =? 2) && is_leap y then 29
  else nth (Z.to_nat m) [0; 31; 28; 31; 30; 31; 30; 31; 31; 30; 31; 30; 31] 0.

Definition days_before_month (y m : Z) : Z :=
  nth (Z.to_nat m) [0; 0; 31; 59; 90; 120; 151; 181; 212; 243; 273; 304; 334] 0
  + (if (2 <? m) && is_leap y then 1 else 0).

Definition ymd2ord (y m d : Z) : Z :=
  days_before_year y + days_before_month y m + d.

(** The values a [datetime] object can hold (its constructor checks them). *)
Definition valid_datetime (t : datetime) : Prop :=
  1 <= year t <= 9999 /\ 1 <= month t <= 12 /\
  1 <= day t <= days_in_month (year t) (month t) /\
  0 <= hour t < 24 /\ 0 <= minute t < 60 /\ 0 <= second t < 60 /\
  0 <= microsecond t < 1000000.

#[global] Instance valid_datetime_dec t : Decision (valid_datetime t).
Proof. unfold valid_datetime. apply _. Defined.

(** Whole seconds, and microseconds, since the start of day 0 of the
    ordinal count: [t2 - t1] is the timedelta of
    [to_micros t2 - to_micros t1] microseconds. *)
Definition to_seconds (t : datetime) : Z :=
  ((ymd2ord (year t) (month t) (day t) * 24 + hour t) * 60 + minute t) * 60
  + second t.

Definition to_micros (t : datetime) : Z :=
  to_seconds t * 1000000 + microsecond t.

(** *** isoformat

    ["%04d-%02d-%02dT%02d:%02d:%02d"], followed by [".%06d"] of the
    microseconds when they are not zero. *)

Definition digit (n : Z) : ascii := ascii_of_N (48 + Z.to_N n).

(** ["%0<w>d" % n] for [0 <= n < 10 ^ w]: [w] digits, most significant
    first. *)
Fixpoint zfill (w : nat) (n : Z) : string :=
  match w with
  | O => ""
  | S w' => zfill w' (n / 10) +:+ String (digit (n mod 10)) ""
  end.

Definition isoformat (t : datetime) : string :=
  zfill 4 (year t) +:+ "-" +:+ zfill 2 (month t) +:+ "-" +:+ zfill 2 (day t)
  +:+ "T" +:+ zfill 2 (hour t) +:+ ":" +:+ zfill 2 (minute t)
  +:+ ":" +:+ zfill 2 (second t)
  +:+ (if microsecond t =? 0 then "" else "." +:+ zfill 6 (microsecond t)).

(** ** Python's str

    [s.replace(old, new)] for one-character [old] and [new];
    [name.startswith(p)] is [String.prefix p name]; [a < b] on [str] is
    [String.ltb], the order of the code points (on the UTF-8 bytes of the
    model it is the same order). *)
Fixpoint replace (old new : ascii) (s : string) : string :=
  match s with
  | EmptyString => EmptyString
  | String c s' =>
      String (if Ascii.eqb c old then new else c) (replace old new s')
  end.

(** [max(first :: rest)]: the running maximum is replaced only by a
    strictly greater item. *)
Fixpoint py_max (best : string) (rest : list string) : string :=
  match rest with
  | [] => best
  | x :: rest' => py_max (if String.ltb best x then x else best) rest'
  end.

Fixpoint contains_char (c : ascii) (s : string) : bool :=
  match s with
  | EmptyString => false
  | String c' s' => Ascii.eqb c' c || contains_char c s'
  end.

(** ** What lies outside the program's text

    Two conversions are done by libraries on values the program never
    inspects.  An f-string renders a [str] as itself and any other value by
    its [repr]; PostgreSQL stores [NULL] for [None], a string in a text
    column and a number in a numeric column within the limits of the
    column, and casts anything else by its own rules or refuses it.  The
    renderings and casts of the other values are taken as parameters:
    every theorem below holds whatever they are. *)
Record externals : Type := Externals {
  py_repr : value -> string;
  pg_text : value -> option string;
  pg_float : value -> option Q;
  pg_int : value -> option Z
}.

(** [f"{v}"] *)
Definition py_format (ext : externals) (v : value) : string :=
  match v with
  | JStr s => s
  | _ => py_repr ext v
  end.

(** *** Text in a [VARCHAR(50)] column

    The strings of the model are the UTF-8 bytes of a Python [str].  The
    length of a [VARCHAR] counts characters, that is the bytes that do not
    continue a character.  A string of more than 50 characters is stored
    cut to 50 when the characters in excess are all spaces and refused
    otherwise; psycopg2 refuses a string that holds a NUL character. *)
Definition continues (c : ascii) : bool :=
  ((128 <=? N_of_ascii c) && (N_of_ascii c <? 192))%N.

Fixpoint utf8_length (s : string) : nat :=
  match s with
  | EmptyString => O
  | String c s' => ((if continues c then 0 else 1) + utf8_length s')%nat
  end.

(** The first [n] characters of a string, and what follows them. *)
Fixpoint split_chars (n : nat) (s : string) : string * string :=
  match s with
  | EmptyString => (EmptyString, EmptyString)
  | String c s' =>
      if continues c then
        let (a, b) := split_chars n s' in (String c a, b)
      else
        match n with
        | O => (EmptyString, s)
        | S n' => let (a, b) := split_chars n' s' in (String c a, b)
        end
  end.

Fixpoint all_spaces (s : string) : bool :=
  match s with
  | EmptyString => true
  | String c s' => Ascii.eqb c " " && all_spaces s'
  end.

(** What the column holds for a string, [None] when the statement
    raises. *)
Definition varchar50 (s : string) : option string :=
  if contains_char "000" s then None
  else
    let (kept, excess) := split_chars 50 s in
    if all_spaces excess then Some kept else None.

(** *** Numbers in a [FLOAT] and in an [INT] column

    [FLOAT] is double precision.  A double holds [m / 2 ^ k] exactly when
    [|m| <= 2 ^ 53] and [k <= 1074]; such a number is stored and read back
    as it is.  What becomes of any other number (rounding, or an
    exception when it is out of range) is left to [pg_float].  [INT] has
    32 bits: an integer in its range is stored, an integer out of it
    raises, and the rounding of a number that is not an integer is left to
    [pg_int]. *)
Fixpoint log2_pos (d : positive) : option nat :=
  match d with
  | xH => Some O
  | xO d' => S <$> log2_pos d'
  | xI _ => None
  end.

Definition exact_double (q : Q) : bool :=
  (Z.abs (Qnum (Qred q)) <=? 2 ^ 53) &&
  match log2_pos (Qden (Qred q)) with
  | Some k => (k <=? 1074)%nat
  | None => false
  end.

(** The value bound to a column of type [VARCHAR(50)], [FLOAT] and [INT]:
    [None] when the statement raises, [Some None] for [NULL]. *)
Definition to_varchar50 (ext : externals) (v : value) : option (option string) :=
  match v with
  | JNull => Some None
  | _ =>
      s ← (match v with JStr s => Some s | _ => pg_text ext v end);
      Some <$> varchar50 s
  end.

Definition to_float (ext : externals) (v : value) : option (option Q) :=
  match v with
  | JNull => Some None
  | JNum q => if exact_double q then Some (Some q) else Some <$> pg_float ext v
  | _ => Some <$> pg_float ext v
  end.

Definition to_int (ext : externals) (v : value) : option (option Z) :=
  match v with
  | JNull => Some None
  | JNum q =>
      if (Qden (Qred q) =? 1)%positive then
        if (- 2 ^ 31 <=? Qnum (Qred q)) && (Qnum (Qred q) <? 2 ^ 31)
        then Some (Some (Qnum (Qred q)))
        else None
      else Some <$> pg_int ext v
  | _ => Some <$> pg_int ext v
  end.

(** A column read back by psycopg2: [NULL] is [None], a number a number. *)
Definition of_float (c : option Q) : value :=
  match c with Some q => JNum q | None => JNull end.

Definition of_int (c : option Z) : value :=
  match c with Some n => JNum (inject_Z n) | None => JNull end.

(** ** The state of the service *)

(** A row of the table [sensor_data] created by [init_db]. *)
Record row : Type := Row {
  r_id : Z;
  r_device_id : string;
  r_temperature : option Q;
  r_humidity : option Q;
  r_flow_rate : option Q;
  r_flow_direction : option Z;
  r_latitude : option Q;
  r_longitude : option Q;
  r_timestamp : option datetime
}.

(** [database_url]: the environment variable [DATABASE_URL] is set and not
    empty.  [sensor_data]: the rows of the table, oldest first, and
    [next_id] the next value of its [SERIAL] key.  [open_connections]: the
    connections made by [psycopg2.connect] on which the program has not
    called [close()] (what the interpreter does with a connection that is
    no longer referenced is outside the model).  [data_dir]:
    the entries of the directory [data], each a JSON document ([save_data]
    is its only writer), or [None] when the directory does not exist; the
    file [data/n] is the entry [n].  [save_calls] is a history variable:
    the arguments of the calls of [save_data] so far. *)
Record world : Type := World {
  database_url : bool;
  sensor_data : list row;
  next_id : Z;
  open_connections : nat;
  data_dir : option (gmap string value);
  save_calls : list (gmap string value)
}.

Definition set_table (w : world) (rows : list row) (n : Z) : world :=
  World (database_url w) rows n (open_connections w) (data_dir w)
        (save_calls w).

Definition set_connections (w : world) (n : nat) : world :=
  World (database_url w) (sensor_data w) (next_id w) n (data_dir w)
        (save_calls w).

Definition set_data_dir (w : world) (d : option (gmap string value)) : world :=
  World (database_url w) (sensor_data w) (next_id w) (open_connections w) d
        (save_calls w).

Definition log_save (w : world) (data : gmap string value) : world :=
  World (database_url w) (sensor_data w) (next_id w) (open_connections w)
        (data_dir w) (save_calls w ++ [data]).

(** The places where a call on the database can raise for a reason outside
    the program (network, server), and what one request reads from its
    environment: the first such failure if any, whether the file system
    fails, the two readings of [datetime.now()] (in [save_data] and in the
    response of the POST handler), the server's [CURRENT_TIMESTAMP], and
    where the operating system takes a path [data/n] whose [n] has a
    slash: [None] when [open] raises (a directory on the way is missing),
    [Some None] when the file lands outside the directory [data], and
    [Some (Some e)] when the path comes back to the entry [e] of [data]. *)
Inductive db_step : Type :=
  AtConnect | AtCursor | AtExecute | AtCommit | AtFetch.

#[global] Instance db_step_eq_dec : EqDecision db_step.
Proof. solve_decision. Defined.

Record oracle : Type := Oracle {
  db_fault : option db_step;
  fs_fault : bool;
  now_save : datetime;
  now_response : datetime;
  current_timestamp : datetime;
  slash_path : string -> option (option string)
}.

Definition raises (o : oracle) (s : db_step) : bool :=
  bool_decide (db_fault o = Some s).

(** A Python call returns or raises. *)
Inductive outcome (A : Type) : Type :=
  | Ret (a : A)
  | Raise.
Arguments Ret {A} a.
Arguments Raise {A}.

(** What Flask sends: [jsonify(body), status], or its own error page with
    status 500 when the view raised. *)
Inductive response : Type :=
  | Response (body : value) (status : Z)
  | InternalServerError.

Definition status_of (r : response) : Z :=
  match r with
  | Response _ s => s
  | InternalServerError => 500
  end.

(** ** The program *)

Section Service.
Context (ext : externals).

(** [get_db_connection]: a connection when [DATABASE_URL] is set, [None]
    otherwise; [psycopg2.connect] can raise. *)
Definition get_db_connection (o : oracle) (w : world) : outcome bool * world :=
  if database_url w then
    if raises o AtConnect then (Raise, w)
    else (Ret true, set_connections w (S (open_connections w)))
  else (Ret false, w).

(** [conn.close()] *)
Definition conn_close (w : world) : world :=
  set_connections w (Nat.pred (open_connections w)).

(** [init_db]: with a connection, [CREATE TABLE IF NOT EXISTS] inside
    [try], the connection closed in [finally] (the model starts with the
    table present, which the statement leaves as it is); without one, the
    directory [data] is made when it is missing. *)
Definition init_db (o : oracle) (w : world) : outcome unit * world :=
  match get_db_connection o w with
  | (Raise, w1) => (Raise, w1)
  | (Ret true, w1) => (Ret tt, conn_close w1)
  | (Ret false, w1) =>
      match data_dir w1 with
      | Some _ => (Ret tt, w1)
      | None =>
          if fs_fault o then (Raise, w1)
          else (Ret tt, set_data_dir w1 (Some ∅))
      end
  end.

(** The body of the [try] of [save_data] up to [conn.commit()]:
    [conn.cursor()], the [INSERT] and the commit.  [None] when one of them
    raises, and then the table is as before.  The column [device_id] is
    [NOT NULL]; [id] and [timestamp] take their defaults.  (PostgreSQL may
    use up a key for a statement that fails; no query reads the key.) *)
Definition insert_reading (o : oracle) (w : world)
    (device_id temperature humidity flow_rate flow_direction
       latitude longitude : value) : option world :=
  if raises o AtCursor || raises o AtExecute then None
  else
    c_device ← to_varchar50 ext device_id;
    c_device ← c_device;
    c_temperature ← to_float ext temperature;
    c_humidity ← to_float ext humidity;
    c_flow_rate ← to_float ext flow_rate;
    c_flow_direction ← to_int ext flow_direction;
    c_latitude ← to_float ext latitude;
    c_longitude ← to_float ext longitude;
    if raises o AtCommit then None
    else
      Some (set_table w
              (sensor_data w ++
                 [Row (next_id w) c_device c_temperature c_humidity
                      c_flow_rate c_flow_direction c_latitude c_longitude
                      (Some (current_timestamp o))])
              (next_id w + 1)).

(** [with open(filename, 'w') as f: json.dump(data, f)] for the file
    [data/name]: the file is created, or truncated when it exists.  A
    name without a slash is an entry of the directory.  A name with a
    slash is a path that the operating system resolves: [slash_path] says
    where it leads. *)
Definition write_json (o : oracle) (w : world) (name : string)
    (content : value) : option world :=
  if fs_fault o then None
  else
    match data_dir w with
    | None => None
    | Some dir =>
        if contains_char "/" name then
          match slash_path o name with
          | None => None
          | Some None => Some w
          | Some (Some e) =>
              Some (set_data_dir w (Some (<[e := content]> dir)))
          end
        else Some (set_data_dir w (Some (<[name := content]> dir)))
    end.

(** The entry of [data] that the file backend writes: [filename] of
    [save_data] without its directory part. *)
Definition filename (device_id : string) (t : datetime) : string :=
  device_id +:+ "_" +:+ replace ":" "-" (isoformat t) +:+ ".json".

(** [save_data(data)]: [True] when stored, [False] when an exception was
    caught; [get_db_connection] is called outside of any [try]. *)
Definition save_data (o : oracle) (w : world) (data : gmap string value)
    : outcome bool * world :=
  let device_id := dict_get_or data "device_id" (JStr "unknown") in
  match get_db_connection o (log_save w data) with
  | (Raise, w1) => (Raise, w1)
  | (Ret true, w1) =>
      match insert_reading o w1 device_id
              (dict_get data "temperature") (dict_get data "humidity")
              (dict_get data "flow_rate") (dict_get data "flow_direction")
              (dict_get data "latitude") (dict_get data "longitude") with
      | Some w2 => (Ret true, conn_close w2)
      | None => (Ret false, w1)
      end
  | (Ret false, w1) =>
      match write_json o w1 (filename (py_format ext device_id) (now_save o))
              (JObj data) with
      | Some w2 => (Ret true, w2)
      | None => (Ret false, w1)
      end
  end.

Definition required_fields : list string :=
  ["device_id"; "temperature"; "humidity"; "flow_rate"].

Definition error_body (msg : string) : value :=
  JObj {[ "error" := JStr msg ]}.

(** [POST /api/sensor-data] with a JSON object as body. *)
Definition receive_sensor_data (o : oracle) (w : world)
    (data : gmap string value) : response * world :=
  if negb (forallb (dict_contains data) required_fields) then
    (Response (error_body "Missing required fields") 400, w)
  else
    match save_data o w data with
    | (Ret true, w1) =>
        (Response
           (JObj {[ "message" := JStr "Data received successfully";
                    "timestamp" := JStr (isoformat (now_response o));
                    "data" := JObj data ]}) 200, w1)
    | (Ret false, w1) => (Response (error_body "Failed to save data") 500, w1)
    | (Raise, w1) => (InternalServerError, w1)
    end.

(** [ORDER BY timestamp DESC LIMIT 1] over the rows of one device.  In
    descending order PostgreSQL puts [NULL] first; among rows with equal
    timestamps it may return any, and the model returns the oldest. *)
Definition timestamp_ltb (a b : option datetime) : bool :=
  match a, b with
  | Some x, Some y => to_micros x <? to_micros y
  | Some _, None => true
  | None, _ => false
  end.

Fixpoint pick_latest (best : row) (rest : list row) : row :=
  match rest with
  | [] => best
  | r :: rest' =>
      pick_latest
        (if timestamp_ltb (r_timestamp best) (r_timestamp r) then r else best)
        rest'
  end.

Definition select_latest (rows : list row) (device_id : string) : option row :=
  match filter (λ r, r_device_id r = device_id) rows with
  | [] => None
  | r :: rest => Some (pick_latest r rest)
  end.

(** [os.listdir('data')] *)
Definition listdir (dir : gmap string value) : list string :=
  (map_to_list dir).*1.

(** The [try] of the database branch of [get_latest_data]. *)
Definition query_latest (o : oracle) (w : world) (device_id : string)
    : response :=
  if raises o AtCursor || raises o AtExecute || raises o AtFetch then
    Response (error_body "Database error") 500
  else
    match select_latest (sensor_data w) device_id with
    | Some r =>
        match r_timestamp r with
        | Some t =>
            Response
              (JObj {[ "device_id" := JStr device_id;
                       "temperature" := of_float (r_temperature r);
                       "humidity" := of_float (r_humidity r);
                       "flow_rate" := of_float (r_flow_rate r);
                       "flow_direction" := of_int (r_flow_direction r);
                       "latitude" := of_float (r_latitude r);
                       "longitude" := of_float (r_longitude r);
                       "timestamp" := JStr (isoformat t) ]}) 200
        | None => Response (error_body "Database error") 500
        end
    | None => Response (error_body "No data found for device") 404
    end.

(** The [try] of the file branch of [get_latest_data]. *)
Definition read_latest (o : oracle) (w : world) (device_id : string)
    : response :=
  match data_dir w with
  | Some dir =>
      if fs_fault o then Response (error_body "Error retrieving data") 500
      else
        let device_files :=
          filter (λ f, String.prefix (device_id +:+ "_") f = true)
                 (listdir dir) in
        match device_files with
        | [] => Response (error_body "No data found for device") 404
        | f :: rest =>
            let latest_file := py_max f rest in
            match dir !! latest_file with
            | Some data => Response data 200
            | None => Response (error_body "Error retrieving data") 500
            end
        end
  | None => Response (error_body "Error retrieving data") 500
  end.

(** [GET /api/sensor-data/<device_id>]; the database branch closes the
    connection in [finally]. *)
Definition get_latest_data (o : oracle) (w : world) (device_id : string)
    : response * world :=
  match get_db_connection o w with
  | (Raise, w1) => (InternalServerError, w1)
  | (Ret true, w1) => (query_latest o w1 device_id, conn_close w1)
  | (Ret false, w1) => (read_latest o w1 device_id, w1)
  end.

End Service.

(** [before_first_request], which the module calls once when it is
    loaded. *)
Definition before_first_request (o : oracle) (w : world)
    : outcome unit * world :=
  init_db o w.



(** ** Notions used in the statements *)

(** The lexicographic order of the six fields down to the second. *)
Definition fields_lt (a b : datetime) : Prop :=
  year a < year b \/ year a = year b /\
  (month a < month b \/ month a = month b /\
  (day a < day b \/ day a = day b /\
  (hour a < hour b \/ hour a = hour b /\
  (minute a < minute b \/ minute a = minute b /\
   second a < second b)))).

(** The part of a file name after the seconds. *)
Definition fraction (t : datetime) : string :=
  if microsecond t =? 0 then "" else "." +:+ zfill 6 (microsecond t).

(** The rank of an instant among the file names of one device: the
    seconds first, then the microseconds, a name without microseconds
    coming after every name with them. *)
Definition file_rank (t : datetime) : Z :=
  to_seconds t * 1000001
  + (if microsecond t =? 0 then 1000000 else microsecond t).

(** The file that the GET handler picks from a listing of the directory:
    [max] of the names that start with the identifier and an underscore,
    if there are any. *)
Definition latest_file (device_id : string) (names : list string)
    : option string :=
  match filter (λ f, String.prefix (device_id +:+ "_") f = true) names with
  | [] => None
  | f :: rest => Some (py_max f rest)
  end.

(** The value under a key of a JSON object sent as body. *)
Definition body_lookup (r : response) (k : string) : option value :=
  match r with
  | Response (JObj m) _ => m !! k
  | _ => None
  end.

(** The body of an answer. *)
Definition body_of (r : response) : value :=
  match r with
  | Response body _ => body
  | InternalServerError => JNull
  end.

(** The names in the directory, and the value under a key of the object
    stored in one of its files. *)
Definition entries (w : world) : option (list string) :=
  listdir <$> data_dir w.

Definition stored_field (w : world) (name key : string) : option value :=
  dir ← data_dir w;
  v ← dir !! name;
  match v with
  | JObj m => m !! key
  | _ => None
  end.

(** Every file of the directory holds an object with the four required
    keys: what the POST handler writes. *)
Definition posted_dir (w : world) : Prop :=
  forall dir name v,
    data_dir w = Some dir -> dir !! name = Some v ->
    exists m, v = JObj m /\
      forall field, field ∈ required_fields -> is_Some (m !! field).

(** Every file of the directory holds a payload that was handed to
    [save_data], one with the four required keys. *)
Definition saved_dir (w : world) : Prop :=
  forall (dir : gmap string value) (name : string) (v : value),
    data_dir w = Some dir -> dir !! name = Some v ->
    exists data,
      data ∈ save_calls w /\ v = JObj data /\
      forall field, field ∈ required_fields -> is_Some (data !! field).

(** The keys of the body that the specification gives for a GET. *)
Definition reading_keys : list string :=
  ["device_id"; "temperature"; "humidity"; "flow_rate"; "flow_direction";
   "latitude"; "longitude"; "timestamp"].

(** A sequence of requests served one after the other, each with its
    own reading of the environment. *)
Inductive request : Type :=
  | Post (data : gmap string value)
  | Get (device_id : string).

Definition serve (ext : externals) (o : oracle) (w : world) (q : request)
    : response * world :=
  match q with
  | Post data => receive_sensor_data ext o w data
  | Get device_id => get_latest_data o w device_id
  end.

Fixpoint run (ext : externals) (w : world) (qs : list (oracle * request))
    : world :=
  match qs with
  | [] => w
  | (o, q) :: qs' => run ext (serve ext o w q).2 qs'
  end.

(** ** Sample data

    An instance of the parameters that renders [None], [True] and [False]
    and refuses every cast (the samples hold strings, numbers and [null]),
    three instants of one day, and the two kinds of process: one started
    without [DATABASE_URL], after [init_db] made the directory, and one
    started with it. *)
Definition strict_externals : externals :=
  Externals
    (λ v, match v with
          | JNull => "None"
          | JBool true => "True"
          | JBool false => "False"
          | _ => ""
          end)
    (λ _, None) (λ _, None) (λ _, None).

Definition noon : datetime := Datetime 2024 1 1 12 0 0 0.
Definition noon_and_a_half : datetime := Datetime 2024 1 1 12 0 0 500000.
Definition noon_and_one : datetime := Datetime 2024 1 1 12 0 1 0.

(** A request served at instant [t] with nothing failing. *)
Definition at_time (t : datetime) : oracle :=
  Oracle None false t t t (λ _, None).

Definition file_world : world := World false [] 1 0 (Some ∅) [].
Definition db_world : world := World true [] 1 0 None [].

Definition reading (device_id : string) (temperature : Z)
    : gmap string value :=
  {[ "device_id" := JStr device_id;
     "temperature" := JNum (inject_Z temperature);
     "humidity" := JNum (inject_Z 40);
     "flow_rate" := JNum (inject_Z 2) ]}.

(** A reading whose temperature is [null]. *)
Definition reading_null : gmap string value :=
  <["temperature" := JNull]> (reading "a" 0).

(** A reading without the key [flow_rate]. *)
Definition reading_short : gmap string value :=
  delete "flow_rate" (reading "a" 0).

(** A device identifier of 51 characters. *)
Definition long_id : string :=
  "sensor-0000000000000000000000000000000000000000000x".

(** * Properties *)

(** Membership of a key in [required_fields], and the case analysis over
    its four keys. *)
Ltac in_fields := unfold required_fields; repeat constructor.

(** Closes a conjunction of equations between closed terms by evaluation. *)
Ltac by_evaluation := vm_compute; repeat apply conj; reflexivity.

Ltac each_field H :=
  unfold required_fields in H;
  repeat (apply elem_of_cons in H as [-> | H]);
  [.. | now apply elem_of_nil in H].

(** ** The order of strings *)

Lemma append_cons (x : ascii) (a b : string) :
  String x a +:+ b = String x (a +:+ b).
Proof. reflexivity. Qed.

Lemma append_assoc (a b c : string) : (a +:+ b) +:+ c = a +:+ (b +:+ c).
Proof.
  induction a as [|x a IH]; [reflexivity|].
  rewrite !append_cons. now rewrite IH.
Qed.

Lemma append_nil_l (a : string) : "" +:+ a = a.
Proof. reflexivity. Qed.

Lemma ascii_compare_refl (c : ascii) : Ascii.compare c c = Eq.
Proof. unfold Ascii.compare. apply N.compare_refl. Qed.

Lemma compare_cons_same (c : ascii) (a b : string) :
  String.compare (String c a) (String c b) = String.compare a b.
Proof. cbn. now rewrite ascii_compare_refl. Qed.

(** A common prefix does not take part in the comparison. *)
Lemma compare_append_same (p a b : string) :
  String.compare (p +:+ a) (p +:+ b) = String.compare a b.
Proof.
  induction p as [|c p IH]; [reflexivity|].
  rewrite !append_cons, compare_cons_same. exact IH.
Qed.

Lemma ltb_lt (a b : string) :
  String.ltb a b = true <-> String.compare a b = Lt.
Proof. unfold String.ltb. destruct (String.compare a b); intuition congruence. Qed.

Lemma compare_refl (a : string) : String.compare a a = Eq.
Proof.
  induction a as [|c a IH]; [reflexivity|].
  now rewrite compare_cons_same.
Qed.

Lemma ltb_irrefl (a : string) : String.ltb a a = false.
Proof. unfold String.ltb. now rewrite compare_refl. Qed.

Lemma ltb_asym (a b : string) : String.ltb a b = true -> String.ltb b a = false.
Proof.
  unfold String.ltb. rewrite (String.compare_antisym b a).
  destruct (String.compare a b); cbn; congruence.
Qed.

(** *** Decimal digits *)

Lemma digit_lt (n m : Z) :
  0 <= n -> n < m -> m < 10 -> Ascii.compare (digit n) (digit m) = Lt.
Proof.
  intros Hn Hnm Hm. unfold Ascii.compare, digit.
  rewrite !N_ascii_embedding by lia.
  apply N.compare_lt_iff. lia.
Qed.

Lemma digit_not_colon (n : Z) :
  0 <= n < 10 -> Ascii.eqb (digit n) ":" = false.
Proof.
  intros Hn. apply Ascii.eqb_neq. intros E.
  apply (f_equal N_of_ascii) in E. unfold digit in E.
  rewrite N_ascii_embedding in E by lia. cbn in E. lia.
Qed.

Lemma zfill_step (w : nat) (n : Z) (a : string) :
  zfill (S w) n +:+ a = zfill w (n / 10) +:+ String (digit (n mod 10)) a.
Proof. cbn [zfill]. now rewrite append_assoc. Qed.

(** Numbers of the same width compare as their digits do. *)
Lemma zfill_lt (w : nat) : forall (n m : Z) (a b : string),
  0 <= n -> n < m -> m < 10 ^ Z.of_nat w ->
  String.compare (zfill w n +:+ a) (zfill w m +:+ b) = Lt.
Proof.
  induction w as [|w IH]; intros n m a b Hn Hnm Hm.
  - cbn in Hm. lia.
  - rewrite !zfill_step.
    rewrite Nat2Z.inj_succ, Z.pow_succ_r in Hm by lia.
    destruct (Z.eq_dec (n / 10) (m / 10)) as [E|NE].
    + rewrite E, compare_append_same. cbn.
      rewrite digit_lt; [reflexivity| | |].
      * apply Z.mod_pos_bound. lia.
      * rewrite (Z.div_mod n 10), (Z.div_mod m 10) in Hnm by lia. lia.
      * apply Z.mod_pos_bound. lia.
    + apply IH.
      * apply Z.div_pos; lia.
      * assert (n / 10 <= m / 10) by (apply Z.div_le_mono; lia). lia.
      * apply Z.div_lt_upper_bound; lia.
Qed.

Lemma replace_append (old new : ascii) (a b : string) :
  replace old new (a +:+ b) = replace old new a +:+ replace old new b.
Proof.
  induction a as [|c a IH]; [reflexivity|].
  rewrite append_cons. cbn [replace]. now rewrite IH, append_cons.
Qed.

Lemma replace_zfill (w : nat) : forall n : Z,
  replace ":" "-" (zfill w n) = zfill w n.
Proof.
  induction w as [|w IH]; intros n; [reflexivity|].
  cbn [zfill]. rewrite replace_append, IH. cbn.
  rewrite digit_not_colon; [reflexivity|].
  apply Z.mod_pos_bound. lia.
Qed.

(** *** Prefixes *)

Lemma prefix_append (p s : string) : String.prefix p (p +:+ s) = true.
Proof.
  induction p as [|c p IH]; [now destruct s|].
  rewrite append_cons. cbn. now destruct (ascii_dec c c).
Qed.

Lemma filename_prefix (device_id : string) (t : datetime) :
  String.prefix (device_id +:+ "_") (filename device_id t) = true.
Proof. unfold filename. rewrite <- append_assoc. apply prefix_append. Qed.

(** ** The calendar *)

Lemma is_leap_cases (y : Z) :
  (is_leap y = true /\ y mod 4 = 0 /\ (y mod 100 <> 0 \/ y mod 400 = 0)) \/
  (is_leap y = false /\ (y mod 4 <> 0 \/ (y mod 100 = 0 /\ y mod 400 <> 0))).
Proof.
  unfold is_leap.
  destruct (Z.eqb_spec (y mod 4) 0), (Z.eqb_spec (y mod 100) 0),
    (Z.eqb_spec (y mod 400) 0); cbn; intuition lia.
Qed.

(** A year has 365 days, and one more when it is a leap year. *)
Lemma days_before_year_succ (y : Z) :
  days_before_year (y + 1)
  = days_before_year y + 365 + (if is_leap y then 1 else 0).
Proof.
  unfold days_before_year.
  replace (y + 1 - 1) with y by lia.
  destruct (is_leap_cases y) as [(-> & H4 & H100) | (-> & H)];
    cbv zeta; Z.div_mod_to_equations; lia.
Qed.

Lemma days_before_year_mono (y1 y2 : Z) :
  y1 <= y2 -> days_before_year y1 <= days_before_year y2.
Proof.
  intros H. unfold days_before_year. cbv zeta.
  Z.div_mod_to_equations. lia.
Qed.

Lemma month_cases (m : Z) :
  1 <= m <= 12 ->
  m = 1 \/ m = 2 \/ m = 3 \/ m = 4 \/ m = 5 \/ m = 6 \/
  m = 7 \/ m = 8 \/ m = 9 \/ m = 10 \/ m = 11 \/ m = 12.
Proof. lia. Qed.

Ltac each_month H :=
  apply month_cases in H;
  repeat (destruct H as [H|H]); subst.

(** Evaluates the month tables at a known month. *)
Ltac month_tables :=
  cbv [days_in_month days_before_month nth Z.to_nat Pos.to_nat Pos.iter_op
       Init.Nat.add andb Z.eqb Z.ltb Z.compare Pos.compare Pos.compare_cont
       Pos.eqb].

(** The day of the year is at most the length of the year. *)
Lemma day_of_year_bound (y m d : Z) :
  1 <= m <= 12 -> 1 <= d <= days_in_month y m ->
  1 <= days_before_month y m + d <= 365 + (if is_leap y then 1 else 0).
Proof.
  intros Hm. each_month Hm; unfold days_in_month, days_before_month;
    destruct (is_leap y); month_tables; lia.
Qed.

Lemma day_of_year_month_lt (y m1 d1 m2 d2 : Z) :
  1 <= m1 <= 12 -> 1 <= d1 <= days_in_month y m1 ->
  1 <= m2 <= 12 -> 1 <= d2 <= days_in_month y m2 ->
  m1 < m2 ->
  days_before_month y m1 + d1 < days_before_month y m2 + d2.
Proof.
  intros Hm1 Hd1 Hm2 Hd2 Hlt. revert Hd1 Hd2.
  each_month Hm1; each_month Hm2; try lia;
    unfold days_in_month, days_before_month;
    destruct (is_leap y); month_tables; lia.
Qed.

(** The ordinal of a date grows with the date. *)
Lemma ymd2ord_year_lt (y1 m1 d1 y2 m2 d2 : Z) :
  1 <= m1 <= 12 -> 1 <= d1 <= days_in_month y1 m1 ->
  1 <= m2 <= 12 -> 1 <= d2 <= days_in_month y2 m2 ->
  y1 < y2 -> ymd2ord y1 m1 d1 < ymd2ord y2 m2 d2.
Proof.
  intros Hm1 Hd1 Hm2 Hd2 Hlt. unfold ymd2ord.
  pose proof (day_of_year_bound y1 m1 d1 Hm1 Hd1).
  pose proof (day_of_year_bound y2 m2 d2 Hm2 Hd2).
  pose proof (days_before_year_succ y1).
  pose proof (days_before_year_mono (y1 + 1) y2 ltac:(lia)).
  lia.
Qed.

Lemma ymd2ord_month_lt (y m1 d1 m2 d2 : Z) :
  1 <= m1 <= 12 -> 1 <= d1 <= days_in_month y m1 ->
  1 <= m2 <= 12 -> 1 <= d2 <= days_in_month y m2 ->
  m1 < m2 -> ymd2ord y m1 d1 < ymd2ord y m2 d2.
Proof.
  intros Hm1 Hd1 Hm2 Hd2 Hlt. unfold ymd2ord.
  pose proof (day_of_year_month_lt y m1 d1 m2 d2 Hm1 Hd1 Hm2 Hd2 Hlt).
  lia.
Qed.

(** An earlier second has smaller fields. *)
Lemma to_seconds_fields_lt (a b : datetime) :
  valid_datetime a -> valid_datetime b ->
  to_seconds a < to_seconds b -> fields_lt a b.
Proof.
  intros (Hy1 & Hm1 & Hd1 & Hh1 & Hi1 & Hs1 & _)
         (Hy2 & Hm2 & Hd2 & Hh2 & Hi2 & Hs2 & _).
  unfold to_seconds, fields_lt. intros Hlt.
  destruct (Z.lt_trichotomy (year a) (year b)) as [Hy | [Hy | Hy]];
    [now left | | ].
  2: { pose proof (ymd2ord_year_lt _ _ _ _ _ _ Hm2 Hd2 Hm1 Hd1 Hy). lia. }
  right. split; [exact Hy|]. rewrite Hy in *.
  destruct (Z.lt_trichotomy (month a) (month b)) as [Hm | [Hm | Hm]];
    [now left | | ].
  2: { pose proof (ymd2ord_month_lt _ _ _ _ _ Hm2 Hd2 Hm1 Hd1 Hm). lia. }
  right. split; [exact Hm|]. rewrite Hm in *.
  unfold ymd2ord in Hlt. lia.
Qed.

Lemma to_micros_seconds (a b : datetime) :
  valid_datetime a -> valid_datetime b ->
  to_micros a + 1000000 <= to_micros b -> to_seconds a < to_seconds b.
Proof.
  intros (_ & _ & _ & _ & _ & _ & Hu1) (_ & _ & _ & _ & _ & _ & Hu2).
  unfold to_micros. lia.
Qed.

(** ** File names of the fallback backend *)

(** The timestamp as it stands in a file name: digits are not touched by
    the replacement, the two colons become dashes. *)
Lemma stamp_fields (t : datetime) :
  replace ":" "-" (isoformat t)
  = zfill 4 (year t) +:+ "-" +:+ zfill 2 (month t) +:+ "-"
    +:+ zfill 2 (day t) +:+ "T" +:+ zfill 2 (hour t) +:+ "-"
    +:+ zfill 2 (minute t) +:+ "-" +:+ zfill 2 (second t) +:+ fraction t.
Proof.
  unfold isoformat, fraction.
  rewrite !replace_append, !replace_zfill.
  destruct (microsecond t =? 0); [reflexivity|].
  rewrite !replace_append, !replace_zfill. reflexivity.
Qed.

Ltac same_field E := rewrite E, compare_append_same, ?compare_cons_same.

(** Whatever follows them, timestamps compare as their fields down to the
    second do. *)
Lemma stamp_lt (a b : datetime) (x y : string) :
  valid_datetime a -> valid_datetime b -> fields_lt a b ->
  String.compare (replace ":" "-" (isoformat a) +:+ x)
                 (replace ":" "-" (isoformat b) +:+ y) = Lt.
Proof.
  intros (Hy1 & Hm1 & Hd1 & Hh1 & Hi1 & Hs1 & _)
         (Hy2 & Hm2 & Hd2 & Hh2 & Hi2 & Hs2 & _) Hlt.
  assert (Hday1 : day a <= 31).
  { revert Hd1. clear -Hm1. each_month Hm1; rewrite Hm1;
      unfold days_in_month; destruct (is_leap (year a)); month_tables; lia. }
  assert (Hday2 : day b <= 31).
  { revert Hd2. clear -Hm2. each_month Hm2; rewrite Hm2;
      unfold days_in_month; destruct (is_leap (year b)); month_tables; lia. }
  rewrite !stamp_fields, !append_assoc, !append_cons, !append_nil_l.
  destruct Hlt as [H | (E & Hlt)]; [apply zfill_lt; lia | same_field E].
  destruct Hlt as [H | (E' & Hlt)]; [apply zfill_lt; lia | same_field E'].
  destruct Hlt as [H | (E'' & Hlt)]; [apply zfill_lt; lia | same_field E''].
  destruct Hlt as [H | (E3 & Hlt)]; [apply zfill_lt; lia | same_field E3].
  destruct Hlt as [H | (E4 & Hlt)]; [apply zfill_lt; lia | same_field E4].
  apply zfill_lt; lia.
Qed.

Lemma filename_lt (device_id : string) (a b : datetime) :
  valid_datetime a -> valid_datetime b ->
  to_micros a + 1000000 <= to_micros b ->
  String.ltb (filename device_id a) (filename device_id b) = true.
Proof.
  intros Ha Hb Hlt. apply ltb_lt. unfold filename.
  rewrite !compare_append_same.
  apply stamp_lt; [assumption..|].
  apply to_seconds_fields_lt; [assumption..|].
  now apply to_micros_seconds.
Qed.

(** The two shapes of a timestamp, and one second as the bound: within
    one second the name without a fraction is the greater one, though it
    is the earlier. *)
Lemma isoformat_samples :
  isoformat noon = "2024-01-01T12:00:00" /\
  isoformat noon_and_a_half = "2024-01-01T12:00:00.500000" /\
  filename "a" noon = "a_2024-01-01T12-00-00.json" /\
  filename "a" noon_and_a_half = "a_2024-01-01T12-00-00.500000.json".
Proof. by_evaluation. Qed.

Lemma filename_order_within_second :
  to_micros noon < to_micros noon_and_a_half /\
  String.ltb (filename "a" noon_and_a_half) (filename "a" noon) = true.
Proof. by_evaluation. Qed.

(** ** The storage function *)

Section Handlers.
Context (ext : externals).

Lemma insert_reading_frame (o : oracle) (w w' : world)
    (d t h f fd la lo : value) :
  insert_reading ext o w d t h f fd la lo = Some w' ->
  database_url w' = database_url w /\
  open_connections w' = open_connections w /\
  data_dir w' = data_dir w /\
  save_calls w' = save_calls w /\
  exists r, sensor_data w' = (sensor_data w ++ [r])%list /\
            r_timestamp r = Some (current_timestamp o).
Proof.
  unfold insert_reading. intros H.
  destruct (raises o AtCursor || raises o AtExecute); [discriminate|].
  repeat match type of H with
  | mbind _ ?x = _ =>
      destruct x; cbn [mbind option_bind] in H; try discriminate
  end.
  destruct (raises o AtCommit); [discriminate|].
  injection H as <-. cbn. eauto 10.
Qed.

Lemma write_json_frame (o : oracle) (w w' : world) (name : string)
    (content : value) :
  write_json o w name content = Some w' ->
  database_url w' = database_url w /\
  open_connections w' = open_connections w /\
  sensor_data w' = sensor_data w /\
  save_calls w' = save_calls w /\
  exists dir, data_dir w = Some dir /\
    (data_dir w' = Some dir \/
     exists e, data_dir w' = Some (<[e := content]> dir)) /\
    (contains_char "/" name = false ->
     data_dir w' = Some (<[name := content]> dir)).
Proof.
  unfold write_json. intros H.
  destruct (fs_fault o); [discriminate|].
  destruct (data_dir w) as [dir|] eqn:E; [|discriminate].
  destruct (contains_char "/" name).
  - destruct (slash_path o name) as [[e|]|]; [| |discriminate];
      injection H as <-; cbn; repeat (split; [reflexivity|]);
      exists dir; (split; [first [reflexivity | exact E]|]);
      (split; [eauto | discriminate]).
  - injection H as <-. cbn. repeat (split; [reflexivity|]).
    exists dir. split; [reflexivity|]. split; eauto.
Qed.

(** Every call of [save_data] is recorded, whatever its outcome. *)
Lemma save_data_logged (o : oracle) (w : world) (data : gmap string value) :
  save_calls (save_data ext o w data).2 = (save_calls w ++ [data])%list.
Proof.
  unfold save_data, get_db_connection. cbn [database_url log_save].
  destruct (database_url w).
  - destruct (raises o AtConnect); [reflexivity|].
    destruct (insert_reading _ _ _ _ _ _ _ _ _ _) as [w2|] eqn:E;
      [|reflexivity].
    apply insert_reading_frame in E as (_ & _ & _ & E & _). exact E.
  - destruct (write_json _ _ _ _) as [w2|] eqn:E; [|reflexivity].
    apply write_json_frame in E as (_ & _ & _ & E & _). exact E.
Qed.

(** ** The POST handler *)

Lemma validation_spec (data : gmap string value) :
  forallb (dict_contains data) required_fields = true <->
  forall field, field ∈ required_fields -> is_Some (data !! field).
Proof.
  rewrite forallb_forall. unfold dict_contains.
  split; intros H field Hin.
  - apply list_elem_of_In, H in Hin. now apply bool_decide_eq_true in Hin.
  - apply bool_decide_eq_true, H, list_elem_of_In, Hin.
Qed.

Lemma validation_fails (data : gmap string value) (field : string) :
  field ∈ required_fields -> data !! field = None ->
  forallb (dict_contains data) required_fields = false.
Proof.
  intros Hin Hnone.
  destruct (forallb _ _) eqn:E; [|reflexivity].
  apply validation_spec with (field := field) in E; [|exact Hin].
  rewrite Hnone in E. now destruct E.
Qed.

(** The two ways through the handler. *)
Lemma receive_missing (o : oracle) (w : world) (data : gmap string value)
    (field : string) :
  field ∈ required_fields -> data !! field = None ->
  receive_sensor_data ext o w data
  = (Response (error_body "Missing required fields") 400, w).
Proof.
  intros Hin Hnone. unfold receive_sensor_data.
  now rewrite (validation_fails data field Hin Hnone).
Qed.

Lemma receive_valid (o : oracle) (w : world) (data : gmap string value) :
  (forall field, field ∈ required_fields -> is_Some (data !! field)) ->
  receive_sensor_data ext o w data
  = (match (save_data ext o w data).1 with
     | Ret true =>
         Response
           (JObj {[ "message" := JStr "Data received successfully";
                    "timestamp" := JStr (isoformat (now_response o));
                    "data" := JObj data ]}) 200
     | Ret false => Response (error_body "Failed to save data") 500
     | Raise => InternalServerError
     end, (save_data ext o w data).2).
Proof.
  intros Hall. apply validation_spec in Hall.
  unfold receive_sensor_data. rewrite Hall. cbn [negb].
  now destruct (save_data ext o w data) as [[[|]|] w1].
Qed.

(** A save of the file backend that goes through. *)
Lemma save_data_file (o : oracle) (w : world) (data : gmap string value)
    (dir : gmap string value) :
  let name :=
    filename (py_format ext (dict_get_or data "device_id" (JStr "unknown")))
             (now_save o) in
  database_url w = false -> data_dir w = Some dir ->
  fs_fault o = false -> contains_char "/" name = false ->
  save_data ext o w data
  = (Ret true,
     set_data_dir (log_save w data) (Some (<[name := JObj data]> dir))).
Proof.
  intros name Hurl Hdir Hfs Hname.
  unfold save_data, get_db_connection, write_json, log_save.
  cbn [database_url data_dir]. fold name.
  now rewrite Hurl, Hfs, Hdir, Hname.
Qed.

(** C2.  A JSON object that lacks one of [device_id], [temperature],
    [humidity], [flow_rate] is answered 400 with the body
    [{"error": "Missing required fields"}] and nothing else happens: the
    world, with its record of the calls of [save_data], is as before.  An
    object with the four keys passes: it is handed to [save_data], whose
    outcome decides the answer. *)
Theorem validation_gate (o : oracle) (w : world) (data : gmap string value) :
  ((exists field, field ∈ required_fields /\ data !! field = None) ->
   receive_sensor_data ext o w data
   = (Response (JObj {[ "error" := JStr "Missing required fields" ]}) 400, w))
  /\
  ((forall field, field ∈ required_fields -> is_Some (data !! field)) ->
   let (r, w') := receive_sensor_data ext o w data in
   w' = (save_data ext o w data).2 /\
   save_calls w' = (save_calls w ++ [data])%list /\
   r = match (save_data ext o w data).1 with
       | Ret true =>
           Response
             (JObj {[ "message" := JStr "Data received successfully";
                      "timestamp" := JStr (isoformat (now_response o));
                      "data" := JObj data ]}) 200
       | Ret false =>
           Response (JObj {[ "error" := JStr "Failed to save data" ]}) 500
       | Raise => InternalServerError
       end).
Proof.
  split.
  - intros (field & Hin & Hnone). now apply receive_missing with field.
  - intros Hall. rewrite (receive_valid o w data Hall).
    split; [reflexivity|]. split; [apply save_data_logged | reflexivity].
Qed.

(** C4.  When a payload with the four keys is saved, the answer is 200
    and its field [data] is the payload as submitted, with every key it
    came with. *)
Theorem echo_invariant (o : oracle) (w w' : world)
    (data : gmap string value) :
  (forall field, field ∈ required_fields -> is_Some (data !! field)) ->
  save_data ext o w data = (Ret true, w') ->
  exists body,
    receive_sensor_data ext o w data = (Response (JObj body) 200, w') /\
    body !! "data" = Some (JObj data) /\
    body !! "message" = Some (JStr "Data received successfully").
Proof.
  intros Hall Hsave. rewrite (receive_valid o w data Hall), Hsave.
  eexists. split; [reflexivity|]. split; reflexivity.
Qed.

End Handlers.

Lemma validation_gate_witness :
  receive_sensor_data strict_externals (at_time noon) file_world reading_short
  = (Response (JObj {[ "error" := JStr "Missing required fields" ]}) 400,
     file_world)
  /\ save_calls
       (receive_sensor_data strict_externals (at_time noon) file_world
          (reading "a" 21)).2
     = [reading "a" 21].
Proof.
  split.
  - apply (validation_gate strict_externals (at_time noon) file_world
             reading_short).
    exists "flow_rate". split; [in_fields | reflexivity].
  - pose proof (proj2 (validation_gate strict_externals (at_time noon)
                         file_world (reading "a" 21))) as H.
    destruct (receive_sensor_data _ _ _ _) as [r w'].
    apply H. intros field Hin. each_field Hin; vm_compute; eauto.
Defined.

Lemma echo_invariant_witness :
  exists body,
    receive_sensor_data strict_externals (at_time noon) file_world
      (<["note" := JStr "extra"]> (reading "a" 21))
    = (Response (JObj body) 200,
       (save_data strict_externals (at_time noon) file_world
          (<["note" := JStr "extra"]> (reading "a" 21))).2) /\
    body !! "data" = Some (JObj (<["note" := JStr "extra"]> (reading "a" 21))) /\
    body !! "message" = Some (JStr "Data received successfully").
Proof.
  apply (echo_invariant strict_externals (at_time noon) file_world).
  - intros field Hin. each_field Hin; vm_compute; eauto.
  - vm_compute. reflexivity.
Defined.

(** The claim C3 fails: a reading whose temperature is [null] is answered
    200 and written to the directory as it came. *)
Lemma null_temperature_is_stored :
  let (r, w') :=
    receive_sensor_data strict_externals (at_time noon) file_world
      reading_null in
  reading_null !! "temperature" = Some JNull /\
  status_of r = 200 /\
  entries w' = Some ["a_2024-01-01T12-00-00.json"] /\
  stored_field w' "a_2024-01-01T12-00-00.json" "temperature" = Some JNull.
Proof. by_evaluation. Qed.

(** C3, amended.  A required key whose value is [null] is a key that is
    present: for every payload that has the four keys, whatever stands
    under them, [null] included, the payload passes validation and is
    handed to [save_data]; the answer is not 400.  Under the file backend,
    when the directory is in place, the file system does not fail and the
    file name made from [device_id] has no slash, the payload is written as
    submitted under that name and the answer is 200. *)
Theorem null_is_not_absence (ext : externals) (o : oracle) (w : world)
    (data : gmap string value) :
  (forall field, field ∈ required_fields -> is_Some (data !! field)) ->
  let (r, w') := receive_sensor_data ext o w data in
  status_of r <> 400 /\
  save_calls w' = (save_calls w ++ [data])%list /\
  let name :=
    filename (py_format ext (dict_get_or data "device_id" (JStr "unknown")))
             (now_save o) in
  forall dir,
    database_url w = false -> data_dir w = Some dir ->
    fs_fault o = false -> contains_char "/" name = false ->
    status_of r = 200 /\ data_dir w' = Some (<[name := JObj data]> dir).
Proof.
  intros Hall. rewrite (receive_valid ext o w data Hall).
  split; [|split; [apply save_data_logged|]].
  - destruct (save_data ext o w data).1 as [[|]|]; cbn; lia.
  - intros name dir Hurl Hdir Hfs Hname. subst name.
    rewrite (save_data_file ext o w data dir Hurl Hdir Hfs Hname).
    split; reflexivity.
Qed.

Lemma null_is_not_absence_witness :
  let (r, w') :=
    receive_sensor_data strict_externals (at_time noon) file_world
      reading_null in
  status_of r <> 400 /\ save_calls w' = [reading_null] /\
  forall dir,
    database_url file_world = false -> data_dir file_world = Some dir ->
    fs_fault (at_time noon) = false ->
    contains_char "/" "a_2024-01-01T12-00-00.json" = false ->
    status_of r = 200 /\
    data_dir w'
    = Some (<["a_2024-01-01T12-00-00.json" := JObj reading_null]> dir).
Proof.
  apply (null_is_not_absence strict_externals (at_time noon) file_world
           reading_null).
  intros field Hin. each_field Hin; vm_compute; eauto.
Defined.

(** ** Python's max *)

Lemma ltb_false_le (a b : string) :
  String.ltb a b = false <-> String.le b a.
Proof.
  unfold String.le, String.ltb, String.leb.
  rewrite (String.compare_antisym b a).
  destruct (String.compare a b); cbn; intuition (auto; discriminate).
Qed.

Lemma ltb_true_le (a b : string) : String.ltb a b = true -> String.le a b.
Proof.
  unfold String.le, String.ltb, String.leb.
  destruct (String.compare a b); cbn; intuition (auto; discriminate).
Qed.

Lemma py_max_in (rest : list string) : forall best,
  py_max best rest ∈ best :: rest.
Proof.
  induction rest as [|x rest IH]; intros best; cbn [py_max].
  - constructor.
  - pose proof (IH (if String.ltb best x then x else best)) as Hin.
    apply elem_of_cons in Hin as [-> | Hin].
    + destruct (String.ltb best x); repeat constructor.
    + now do 2 constructor.
Qed.

(** No item is strictly greater than the result of [max]. *)
Lemma py_max_ge (rest : list string) : forall best x,
  x ∈ best :: rest -> String.ltb (py_max best rest) x = false.
Proof.
  induction rest as [|y rest IH]; intros best x Hin; cbn [py_max].
  - apply list_elem_of_singleton in Hin as ->. apply ltb_irrefl.
  - set (b := if String.ltb best y then y else best).
    assert (Hbest : String.le best b).
    { subst b. destruct (String.ltb best y) eqn:E;
        [now apply ltb_true_le | reflexivity]. }
    assert (Hy : String.le y b).
    { subst b. destruct (String.ltb best y) eqn:E;
        [reflexivity | now apply ltb_false_le]. }
    assert (Hb : String.le b (py_max b rest)).
    { apply ltb_false_le, IH. constructor. }
    apply elem_of_cons in Hin as [-> | Hin];
      [|apply elem_of_cons in Hin as [-> | Hin]].
    + apply ltb_false_le. now transitivity b.
    + apply ltb_false_le. now transitivity b.
    + apply IH. now constructor.
Qed.

(** The result is the one item that no item exceeds, so it does not
    depend on the order in which [os.listdir] gives the names. *)
Lemma py_max_unique (rest : list string) (best m : string) :
  m ∈ best :: rest ->
  (forall x, x ∈ best :: rest -> String.ltb m x = false) ->
  py_max best rest = m.
Proof.
  intros Hin Hmax.
  apply String.leb_antisym; apply Is_true_true, ltb_false_le.
  - apply Hmax, py_max_in.
  - now apply py_max_ge.
Qed.

Lemma py_max_order (best best' : string) (rest rest' : list string) :
  best :: rest ≡ₚ best' :: rest' -> py_max best rest = py_max best' rest'.
Proof.
  intros Hperm. apply py_max_unique.
  - rewrite Hperm. apply py_max_in.
  - intros x Hx. apply py_max_ge. now rewrite <- Hperm.
Qed.

Lemma py_max_pair (a b : string) :
  String.ltb a b = true -> py_max a [b] = b /\ py_max b [a] = b.
Proof.
  intros H. cbn [py_max]. rewrite H, (ltb_asym a b H). split; reflexivity.
Qed.

(** ** The GET handler *)

Lemma listdir_spec (dir : gmap string value) (name : string) :
  name ∈ listdir dir <-> is_Some (dir !! name).
Proof.
  unfold listdir. rewrite list_elem_of_fmap. split.
  - intros ([n v] & -> & Hin). apply elem_of_map_to_list in Hin. eauto.
  - intros [v Hv]. exists (name, v). split; [reflexivity|].
    now apply elem_of_map_to_list.
Qed.

(** What the file branch answers with 200: the content of a file whose
    name starts with the identifier and an underscore, the greatest of
    these names. *)
Lemma read_latest_200 (o : oracle) (w : world) (device_id : string)
    (body : value) :
  read_latest o w device_id = Response body 200 ->
  exists dir name,
    data_dir w = Some dir /\ dir !! name = Some body /\
    String.prefix (device_id +:+ "_") name = true /\
    forall other,
      is_Some (dir !! other) ->
      String.prefix (device_id +:+ "_") other = true ->
      String.ltb name other = false.
Proof.
  unfold read_latest, error_body. intros H.
  destruct (data_dir w) as [dir|]; [|discriminate].
  destruct (fs_fault o); [discriminate|].
  destruct (filter _ (listdir dir)) as [|f rest] eqn:Efiles; [discriminate|].
  destruct (dir !! py_max f rest) as [v|] eqn:Elook; [|discriminate].
  injection H as ->.
  exists dir, (py_max f rest). split; [reflexivity|]. split; [exact Elook|].
  split.
  - pose proof (py_max_in rest f) as Hin. rewrite <- Efiles in Hin.
    now apply list_elem_of_filter in Hin as [Hp _].
  - intros other Hsome Hp. apply py_max_ge. rewrite <- Efiles.
    apply list_elem_of_filter. split; [exact Hp|]. now apply listdir_spec.
Qed.

(** When no name starts with the identifier and an underscore the answer
    is 404. *)
Lemma read_latest_404 (o : oracle) (w : world) (device_id : string)
    (dir : gmap string value) :
  data_dir w = Some dir -> fs_fault o = false ->
  (forall name, is_Some (dir !! name) ->
                String.prefix (device_id +:+ "_") name = false) ->
  read_latest o w device_id
  = Response (error_body "No data found for device") 404.
Proof.
  intros Hdir Hfs Hnone. unfold read_latest. rewrite Hdir, Hfs.
  destruct (filter _ (listdir dir)) as [|f rest] eqn:Efiles; [reflexivity|].
  assert (Hin : f ∈ filter
            (λ f, String.prefix (device_id +:+ "_") f = true) (listdir dir))
    by (rewrite Efiles; constructor).
  apply list_elem_of_filter in Hin as [Hp Hin].
  apply listdir_spec, Hnone in Hin. congruence.
Qed.

(** *** The database branch *)

Lemma timestamp_ltb_irrefl (a : option datetime) : timestamp_ltb a a = false.
Proof. destruct a; cbn; [apply Z.ltb_irrefl | reflexivity]. Qed.

(** "Not later than" is transitive. *)
Lemma timestamp_ge_trans (a b c : option datetime) :
  timestamp_ltb a b = false -> timestamp_ltb b c = false ->
  timestamp_ltb a c = false.
Proof.
  destruct a, b, c; cbn; try congruence.
  rewrite !Z.ltb_ge. lia.
Qed.

Lemma pick_latest_in (rest : list row) : forall best,
  pick_latest best rest ∈ best :: rest.
Proof.
  induction rest as [|x rest IH]; intros best; cbn [pick_latest].
  - constructor.
  - pose proof (IH (if timestamp_ltb (r_timestamp best) (r_timestamp x)
                    then x else best)) as Hin.
    apply elem_of_cons in Hin as [-> | Hin].
    + destruct (timestamp_ltb _ _); repeat constructor.
    + now do 2 constructor.
Qed.

Lemma pick_latest_ge (rest : list row) : forall best r,
  r ∈ best :: rest ->
  timestamp_ltb (r_timestamp (pick_latest best rest)) (r_timestamp r) = false.
Proof.
  induction rest as [|y rest IH]; intros best r Hin; cbn [pick_latest].
  - apply list_elem_of_singleton in Hin as ->. apply timestamp_ltb_irrefl.
  - set (b := if timestamp_ltb (r_timestamp best) (r_timestamp y)
              then y else best).
    assert (Hbest : timestamp_ltb (r_timestamp b) (r_timestamp best) = false).
    { subst b.
      destruct (timestamp_ltb (r_timestamp best) (r_timestamp y)) eqn:E;
        [|apply timestamp_ltb_irrefl].
      destruct (r_timestamp best), (r_timestamp y); cbn in *;
        try congruence. apply Z.ltb_lt in E. apply Z.ltb_ge. lia. }
    assert (Hy : timestamp_ltb (r_timestamp b) (r_timestamp y) = false).
    { subst b.
      destruct (timestamp_ltb (r_timestamp best) (r_timestamp y)) eqn:E;
        [apply timestamp_ltb_irrefl | exact E]. }
    assert (Hb : timestamp_ltb (r_timestamp (pick_latest b rest))
                               (r_timestamp b) = false).
    { apply IH. constructor. }
    apply elem_of_cons in Hin as [-> | Hin];
      [|apply elem_of_cons in Hin as [-> | Hin]].
    + now apply timestamp_ge_trans with (r_timestamp b).
    + now apply timestamp_ge_trans with (r_timestamp b).
    + apply IH. now constructor.
Qed.

(** The row the query returns belongs to the device and no row of the
    device comes before it in the descending order. *)
Lemma select_latest_spec (rows : list row) (device_id : string) (r : row) :
  select_latest rows device_id = Some r ->
  r ∈ rows /\ r_device_id r = device_id /\
  forall r', r' ∈ rows -> r_device_id r' = device_id ->
             timestamp_ltb (r_timestamp r) (r_timestamp r') = false.
Proof.
  unfold select_latest.
  destruct (filter _ rows) as [|f rest] eqn:E; [discriminate|].
  intros [= <-].
  pose proof (pick_latest_in rest f) as Hin. rewrite <- E in Hin.
  apply list_elem_of_filter in Hin as [Hd Hin].
  split; [exact Hin|]. split; [exact Hd|].
  intros r' Hin' Hd'. apply pick_latest_ge. rewrite <- E.
  now apply list_elem_of_filter.
Qed.

Lemma select_latest_none (rows : list row) (device_id : string) :
  (forall r, r ∈ rows -> r_device_id r <> device_id) ->
  select_latest rows device_id = None.
Proof.
  intros Hnone. unfold select_latest.
  destruct (filter _ rows) as [|f rest] eqn:E; [reflexivity|].
  assert (Hin : f ∈ filter (λ r, r_device_id r = device_id) rows)
    by (rewrite E; constructor).
  apply list_elem_of_filter in Hin as [Hd Hin]. now apply Hnone in Hin.
Qed.

(** What the database branch answers with 200. *)
Lemma query_latest_200 (o : oracle) (w : world) (device_id : string)
    (body : value) :
  query_latest o w device_id = Response body 200 ->
  exists r t,
    select_latest (sensor_data w) device_id = Some r /\
    r_timestamp r = Some t /\
    body = JObj {[ "device_id" := JStr device_id;
                   "temperature" := of_float (r_temperature r);
                   "humidity" := of_float (r_humidity r);
                   "flow_rate" := of_float (r_flow_rate r);
                   "flow_direction" := of_int (r_flow_direction r);
                   "latitude" := of_float (r_latitude r);
                   "longitude" := of_float (r_longitude r);
                   "timestamp" := JStr (isoformat t) ]}.
Proof.
  unfold query_latest, error_body. intros H.
  destruct (raises o AtCursor || raises o AtExecute || raises o AtFetch);
    [discriminate|].
  destruct (select_latest _ _) as [r|]; [|discriminate].
  destruct (r_timestamp r) as [t|] eqn:Et; [|discriminate].
  injection H as <-. eauto.
Qed.

(** The two branches of the handler. *)
Lemma get_latest_data_db (o : oracle) (w : world) (device_id : string) :
  database_url w = true -> raises o AtConnect = false ->
  get_latest_data o w device_id
  = (query_latest o w device_id, w).
Proof.
  intros Hurl Hc. unfold get_latest_data, get_db_connection.
  rewrite Hurl, Hc. unfold conn_close, set_connections. cbn.
  f_equal. now destruct w.
Qed.

Lemma get_latest_data_file (o : oracle) (w : world) (device_id : string) :
  database_url w = false ->
  get_latest_data o w device_id = (read_latest o w device_id, w).
Proof.
  intros Hurl. unfold get_latest_data, get_db_connection. now rewrite Hurl.
Qed.

(** ** What the directory holds *)



(** [init_db] in a process without [DATABASE_URL] and without the
    directory: the directory is made, empty. *)
Lemma init_db_makes_dir (o : oracle) (w : world) :
  database_url w = false -> data_dir w = None -> fs_fault o = false ->
  init_db o w = (Ret tt, set_data_dir w (Some ∅)) /\
  posted_dir (init_db o w).2.
Proof.
  intros Hurl Hdir Hfs. unfold init_db, get_db_connection.
  rewrite Hurl, Hdir, Hfs. split; [reflexivity|].
  intros dir name v [= <-] H. now rewrite lookup_empty in H.
Qed.

(** The GET handler changes nothing. *)
Lemma get_latest_data_world (o : oracle) (w : world) (device_id : string) :
  (get_latest_data o w device_id).2 = w.
Proof.
  unfold get_latest_data, get_db_connection.
  destruct (database_url w); [|reflexivity].
  destruct (raises o AtConnect); [reflexivity|]. now destruct w.
Qed.


(** The claim C5 fails: under the file backend a reading posted with the
    four required keys is returned with status 200 and has neither a
    [timestamp] nor the optional keys. *)
Lemma file_body_lacks_timestamp :
  let w :=
    (receive_sensor_data strict_externals (at_time noon) file_world
       (reading "a" 21)).2 in
  let r := (get_latest_data (at_time noon_and_one) w "a").1 in
  database_url w = false /\ status_of r = 200 /\
  body_lookup r "temperature" = Some (JNum (inject_Z 21)) /\
  body_lookup r "timestamp" = None /\
  body_lookup r "flow_direction" = None /\
  body_lookup r "latitude" = None /\
  body_lookup r "longitude" = None.
Proof. by_evaluation. Qed.

Lemma saved_dir_file_world : saved_dir file_world.
Proof.
  intros dir name v [= <-] H. now rewrite lookup_empty in H.
Qed.

(** The POST handler writes nothing but the payload it was given, after
    the check of the four keys. *)
Lemma receive_keeps_saved_dir (ext : externals) (o : oracle) (w : world)
    (data : gmap string value) :
  saved_dir w -> saved_dir (receive_sensor_data ext o w data).2.
Proof.
  intros Hinv. unfold receive_sensor_data.
  destruct (forallb _ _) eqn:Hvalid; cbn [negb]; [|exact Hinv].
  pose proof (proj1 (validation_spec data) Hvalid) as Hall.
  assert (Hold : forall dir name v,
            data_dir w = Some dir -> dir !! name = Some v ->
            exists data',
              data' ∈ (save_calls w ++ [data])%list /\ v = JObj data' /\
              forall field, field ∈ required_fields ->
                            is_Some (data' !! field)).
  { intros dir name v Hdir Hlook.
    destruct (Hinv dir name v Hdir Hlook) as (data' & Hin & Hv & Hk).
    exists data'. split; [apply elem_of_app; now left | auto]. }
  assert (Hsave : saved_dir (save_data ext o w data).2).
  { pose proof (save_data_logged ext o w data) as Hlog. revert Hlog.
    unfold save_data, get_db_connection. cbn [database_url log_save].
    destruct (database_url w).
    - destruct (raises o AtConnect).
      { cbn [snd]. intros Hlog dir name v Hdir Hlook.
        rewrite Hlog. now apply (Hold dir name v). }
      destruct (insert_reading _ _ _ _ _ _ _ _ _ _) as [w2|] eqn:E.
      + apply insert_reading_frame in E as (_ & _ & E & _).
        cbn [snd]. intros Hlog dir name v Hdir Hlook.
        rewrite Hlog. cbn in Hdir, E. rewrite E in Hdir.
        now apply (Hold dir name v).
      + cbn [snd]. intros Hlog dir name v Hdir Hlook.
        rewrite Hlog. now apply (Hold dir name v).
    - destruct (write_json _ _ _ _) as [w2|] eqn:E.
      + apply write_json_frame
          in E as (_ & _ & _ & _ & dir0 & Hd0 & [Hd2 | (e & Hd2)] & _);
          cbn [snd]; intros Hlog dir name v Hdir Hlook; rewrite Hlog;
          rewrite Hd2 in Hdir; injection Hdir as <-.
        * now apply (Hold dir0 name v).
        * apply lookup_insert_Some in Hlook as [[_ <-] | [_ Hlook]].
          -- exists data. split; [apply elem_of_app; right; constructor|].
             split; [reflexivity | exact Hall].
          -- now apply (Hold dir0 name v).
      + cbn [snd]. intros Hlog dir name v Hdir Hlook.
        rewrite Hlog. now apply (Hold dir name v). }
  now destruct (save_data ext o w data) as [[[|]|] w1].
Qed.

(** C5, amended.  Under the relational backend the body of every answer
    200 of the GET handler is the object of the eight keys [device_id],
    [temperature], [humidity], [flow_rate], [flow_direction], [latitude],
    [longitude] and [timestamp], made from the row that the query selects:
    a row of the requested device than which none of its rows is later,
    whose values stand under the keys and whose timestamp, a valid
    datetime when the timestamps of the table are, stands under
    [timestamp] as its ISO-8601 text.  Under the file backend the body is
    the content of the selected file, the one with the greatest name
    among those that start with the identifier and an underscore; when
    the directory was written by the POST handler this is a payload as it
    was submitted, with the four required keys, and any other key,
    [timestamp] included, is in the body only if that payload had it. *)
Theorem get_body_by_backend (o : oracle) (w w' : world)
    (device_id : string) (body : value) :
  get_latest_data o w device_id = (Response body 200, w') ->
  (database_url w = true ->
   exists r t,
     r ∈ sensor_data w /\ r_device_id r = device_id /\
     r_timestamp r = Some t /\
     (forall r', r' ∈ sensor_data w -> r_device_id r' = device_id ->
                 timestamp_ltb (r_timestamp r) (r_timestamp r') = false) /\
     body = JObj {[ "device_id" := JStr device_id;
                    "temperature" := of_float (r_temperature r);
                    "humidity" := of_float (r_humidity r);
                    "flow_rate" := of_float (r_flow_rate r);
                    "flow_direction" := of_int (r_flow_direction r);
                    "latitude" := of_float (r_latitude r);
                    "longitude" := of_float (r_longitude r);
                    "timestamp" := JStr (isoformat t) ]} /\
     (forall k, k ∈ reading_keys ->
                is_Some (body_lookup (Response body 200) k)) /\
     ((forall r' t', r' ∈ sensor_data w -> r_timestamp r' = Some t' ->
                     valid_datetime t') ->
      valid_datetime t))
  /\
  (database_url w = false ->
   exists dir name,
     data_dir w = Some dir /\ dir !! name = Some body /\
     String.prefix (device_id +:+ "_") name = true /\
     (forall other,
        is_Some (dir !! other) ->
        String.prefix (device_id +:+ "_") other = true ->
        String.ltb name other = false) /\
     (saved_dir w ->
      exists data,
        data ∈ save_calls w /\ body = JObj data /\
        (forall field, field ∈ required_fields -> is_Some (data !! field)) /\
        forall k, body_lookup (Response body 200) k = data !! k)).
Proof.
  intros Hget. split; intros Hurl.
  - unfold get_latest_data, get_db_connection in Hget. rewrite Hurl in Hget.
    destruct (raises o AtConnect); [discriminate|].
    injection Hget as Hq _.
    apply query_latest_200 in Hq as (r & t & Hsel & Ht & ->).
    apply select_latest_spec in Hsel as (Hin & Hd & Hmax).
    cbn [sensor_data set_connections] in Hin, Hmax.
    exists r, t. repeat (split; [assumption|]).
    split; [reflexivity|]. split.
    + intros k Hk. unfold reading_keys in Hk.
      repeat (apply elem_of_cons in Hk as [-> | Hk]);
        [eexists; reflexivity .. | now apply elem_of_nil in Hk].
    + intros Hvalid. exact (Hvalid r t Hin Ht).
  - rewrite (get_latest_data_file o w device_id Hurl) in Hget.
    injection Hget as Hr _.
    apply read_latest_200 in Hr as (dir & name & Hdir & Hlook & Hp & Hmax).
    exists dir, name. repeat (split; [assumption|]).
    intros Hinv.
    destruct (Hinv dir name body Hdir Hlook) as (data & Hin & -> & Hk).
    exists data. repeat (split; [assumption || reflexivity|]).
    reflexivity.
Qed.

(** The relational half on a table with two rows of the device and one of
    another, the file half on a directory with two files of the device. *)
Lemma get_body_by_backend_witness :
  (let w :=
     run strict_externals db_world
       [(at_time noon, Post (reading "a" 1));
        (at_time noon_and_a_half, Post (reading "b" 2));
        (at_time noon_and_one, Post (reading "a" 21))] in
   let body := body_of (get_latest_data (at_time noon_and_one) w "a").1 in
   exists r t,
     r ∈ sensor_data w /\ r_device_id r = "a" /\
     r_timestamp r = Some t /\
     (forall r', r' ∈ sensor_data w -> r_device_id r' = "a" ->
                 timestamp_ltb (r_timestamp r) (r_timestamp r') = false) /\
     body = JObj {[ "device_id" := JStr "a";
                    "temperature" := of_float (r_temperature r);
                    "humidity" := of_float (r_humidity r);
                    "flow_rate" := of_float (r_flow_rate r);
                    "flow_direction" := of_int (r_flow_direction r);
                    "latitude" := of_float (r_latitude r);
                    "longitude" := of_float (r_longitude r);
                    "timestamp" := JStr (isoformat t) ]} /\
     (forall k, k ∈ reading_keys ->
                is_Some (body_lookup (Response body 200) k)) /\
     ((forall r' t', r' ∈ sensor_data w -> r_timestamp r' = Some t' ->
                     valid_datetime t') ->
      valid_datetime t))
  /\
  (let w :=
     run strict_externals file_world
       [(at_time noon_and_a_half, Post (reading "a" 1));
        (at_time noon_and_one, Post (reading "a" 21))] in
   let body := body_of (get_latest_data (at_time noon_and_one) w "a").1 in
   saved_dir w /\
   exists dir name,
     data_dir w = Some dir /\ dir !! name = Some body /\
     String.prefix "a_" name = true /\
     (forall other,
        is_Some (dir !! other) -> String.prefix "a_" other = true ->
        String.ltb name other = false) /\
     (saved_dir w ->
      exists data,
        data ∈ save_calls w /\ body = JObj data /\
        (forall field, field ∈ required_fields -> is_Some (data !! field)) /\
        forall k, body_lookup (Response body 200) k = data !! k)).
Proof.
  split.
  - intros w body.
    apply (get_body_by_backend (at_time noon_and_one) w
             (get_latest_data (at_time noon_and_one) w "a").2 "a" body).
    + vm_compute. reflexivity.
    + reflexivity.
  - intros w body. split.
    + do 2 apply receive_keeps_saved_dir. exact saved_dir_file_world.
    + apply (get_body_by_backend (at_time noon_and_one) w
               (get_latest_data (at_time noon_and_one) w "a").2 "a" body).
      * vm_compute. reflexivity.
      * reflexivity.
Defined.

(** ** Readings of other devices *)

(** A directory with one file whose name starts with the identifier and
    an underscore. *)
Lemma read_latest_singleton (o : oracle) (w : world) (device_id name : string)
    (v : value) :
  data_dir w = Some {[ name := v ]} -> fs_fault o = false ->
  String.prefix (device_id +:+ "_") name = true ->
  read_latest o w device_id = Response v 200.
Proof.
  intros Hdir Hfs Hp. unfold read_latest, listdir. rewrite Hdir, Hfs.
  rewrite map_to_list_singleton. cbn [fmap list_fmap fst].
  rewrite filter_cons_True by exact Hp. rewrite filter_nil.
  cbn [py_max]. now rewrite lookup_singleton_eq.
Qed.

Lemma filename_prefix_longer (device_id rest : string) (t : datetime) :
  String.prefix (device_id +:+ "_")
                (filename (device_id +:+ "_" +:+ rest) t) = true.
Proof.
  unfold filename.
  replace ((device_id +:+ "_" +:+ rest) +:+ "_" +:+
             replace ":" "-" (isoformat t) +:+ ".json")
    with ((device_id +:+ "_") +:+ rest +:+ "_" +:+
             replace ":" "-" (isoformat t) +:+ ".json")
    by now rewrite !append_assoc.
  apply prefix_append.
Qed.

(** C10.  Under the file backend the GET handler chooses among all the
    files whose name starts with the identifier and an underscore: an
    answer 200 is the content of the greatest such name.  Devices are
    therefore not kept apart: when the only reading ever posted is one of
    a device whose identifier is [d], an underscore and more (as [a_b] for
    [a]), the request for [d] returns that reading. *)
Theorem file_latest_not_isolated :
  (forall (o : oracle) (w w' : world) (device_id : string) (body : value),
     database_url w = false ->
     get_latest_data o w device_id = (Response body 200, w') ->
     exists dir name,
       data_dir w = Some dir /\ dir !! name = Some body /\
       String.prefix (device_id +:+ "_") name = true /\
       forall other,
         is_Some (dir !! other) ->
         String.prefix (device_id +:+ "_") other = true ->
         String.ltb name other = false)
  /\
  (forall (ext : externals) (o o' : oracle) (d rest : string)
          (data : gmap string value),
     data !! "device_id" = Some (JStr (d +:+ "_" +:+ rest)) ->
     (forall field, field ∈ required_fields -> is_Some (data !! field)) ->
     fs_fault o = false -> fs_fault o' = false ->
     contains_char "/" (filename (d +:+ "_" +:+ rest) (now_save o)) = false ->
     let w := (receive_sensor_data ext o file_world data).2 in
     save_calls w = [data] /\
     (get_latest_data o' w d).1 = Response (JObj data) 200).
Proof.
  split.
  - intros o w w' device_id body Hurl Hget.
    rewrite (get_latest_data_file o w device_id Hurl) in Hget.
    injection Hget as Hr _. now apply read_latest_200 in Hr.
  - intros ext o o' d rest data Hid Hall Hfs Hfs' Hname w.
    assert (Hw : w = set_data_dir (log_save file_world data)
                   (Some {[ filename (d +:+ "_" +:+ rest) (now_save o)
                            := JObj data ]})).
    { subst w. rewrite (receive_valid ext o file_world data Hall).
      cbn [snd].
      rewrite (save_data_file ext o file_world data ∅ eq_refl eq_refl Hfs);
        unfold dict_get_or; rewrite Hid; cbn [default py_format];
        [now rewrite insert_empty | exact Hname]. }
    split; [now rewrite Hw|].
    rewrite get_latest_data_file by now rewrite Hw.
    cbn [fst]. apply read_latest_singleton with
      (name := filename (d +:+ "_" +:+ rest) (now_save o));
      [now rewrite Hw | exact Hfs' | apply filename_prefix_longer].
Qed.

Lemma file_latest_not_isolated_witness :
  let w :=
    (receive_sensor_data strict_externals (at_time noon) file_world
       (reading "a_b" 21)).2 in
  save_calls w = [reading "a_b" 21] /\
  (get_latest_data (at_time noon_and_one) w "a").1
  = Response (JObj (reading "a_b" 21)) 200.
Proof.
  apply (proj2 file_latest_not_isolated strict_externals (at_time noon)
           (at_time noon_and_one) "a" "b" (reading "a_b" 21)).
  - reflexivity.
  - intros field Hin. each_field Hin; vm_compute; eauto.
  - reflexivity.
  - reflexivity.
  - reflexivity.
Defined.

(** C9 fails on the file backend.  No reading of device [a] was ever
    stored, only one of device [a_b]; the request for [a] is answered 200
    with the reading of [a_b], not 404. *)
Theorem unknown_device_gets_other_reading :
  let w :=
    (receive_sensor_data strict_externals (at_time noon) file_world
       (reading "a_b" 21)).2 in
  let r := (get_latest_data (at_time noon_and_one) w "a").1 in
  (λ data : gmap string value, data !! "device_id") <$> save_calls w
  = [Some (JStr "a_b")] /\
  entries w = Some ["a_b_2024-01-01T12-00-00.json"] /\
  status_of r = 200 /\
  body_lookup r "device_id" = Some (JStr "a_b").
Proof. by_evaluation. Qed.

(** What holds of C9: the answer is 404 when the table has no row of the
    device, and when no file name starts with the identifier and an
    underscore. *)
Lemma no_reading_404 (o : oracle) (w : world) (device_id : string) :
  db_fault o = None -> fs_fault o = false ->
  (database_url w = true ->
   forall r, r ∈ sensor_data w -> r_device_id r <> device_id) ->
  (database_url w = false ->
   exists dir, data_dir w = Some dir /\
     forall name, is_Some (dir !! name) ->
                  String.prefix (device_id +:+ "_") name = false) ->
  get_latest_data o w device_id
  = (Response (JObj {[ "error" := JStr "No data found for device" ]}) 404, w).
Proof.
  intros Hdb Hfs Hrows Hfiles.
  destruct (database_url w) eqn:Hurl.
  - rewrite get_latest_data_db by (unfold raises; now rewrite ?Hdb).
    f_equal. unfold query_latest, raises. rewrite Hdb. cbn.
    now rewrite select_latest_none by auto.
  - rewrite get_latest_data_file by exact Hurl.
    destruct (Hfiles eq_refl) as (dir & Hdir & Hnone).
    now rewrite (read_latest_404 o w device_id dir Hdir Hfs Hnone).
Qed.

(** ** The latest reading *)

(** X15.  Under the relational backend an answer 200 carries the values
    of a row of the device than which no row of the device is later. *)
Lemma db_returns_latest (o : oracle) (w w' : world) (device_id : string)
    (body : value) :
  database_url w = true ->
  get_latest_data o w device_id = (Response body 200, w') ->
  exists r t,
    r ∈ sensor_data w /\ r_device_id r = device_id /\
    r_timestamp r = Some t /\
    (forall r', r' ∈ sensor_data w -> r_device_id r' = device_id ->
                timestamp_ltb (r_timestamp r) (r_timestamp r') = false) /\
    body_lookup (Response body 200) "temperature"
    = Some (of_float (r_temperature r)) /\
    body_lookup (Response body 200) "humidity"
    = Some (of_float (r_humidity r)) /\
    body_lookup (Response body 200) "flow_rate"
    = Some (of_float (r_flow_rate r)).
Proof.
  intros Hurl Hget.
  unfold get_latest_data, get_db_connection in Hget. rewrite Hurl in Hget.
  destruct (raises o AtConnect); [discriminate|].
  injection Hget as Hq _.
  apply query_latest_200 in Hq as (r & t & Hsel & Ht & ->).
  apply select_latest_spec in Hsel as (Hin & Hd & Hmax).
  exists r, t. cbn in Hin, Hmax. repeat (split; [assumption|]).
  split; [|split]; reflexivity.
Qed.

(** C1 fails on the file backend.  Two readings of device [a] are posted,
    the first at 12:00:00 sharp and the second half a second later.
    [isoformat] leaves out the microseconds when they are zero, so the
    first file is [a_2024-01-01T12-00-00.json], which is greater than
    [a_2024-01-01T12-00-00.500000.json]: the GET handler returns the
    first reading, temperature 1, not the second. *)
Theorem earlier_reading_returned :
  let w1 :=
    (receive_sensor_data strict_externals (at_time noon) file_world
       (reading "a" 1)).2 in
  let w2 :=
    (receive_sensor_data strict_externals (at_time noon_and_a_half) w1
       (reading "a" 2)).2 in
  let r := (get_latest_data (at_time noon_and_one) w2 "a").1 in
  to_micros noon < to_micros noon_and_a_half /\
  stored_field w2 "a_2024-01-01T12-00-00.json" "temperature"
  = Some (JNum (inject_Z 1)) /\
  stored_field w2 "a_2024-01-01T12-00-00.500000.json" "temperature"
  = Some (JNum (inject_Z 2)) /\
  status_of r = 200 /\
  body_lookup r "temperature" = Some (JNum (inject_Z 1)).
Proof. by_evaluation. Qed.

(** The same two readings under the relational backend: the second one
    is returned. *)
Lemma later_reading_returned_db :
  let w1 :=
    (receive_sensor_data strict_externals (at_time noon) db_world
       (reading "a" 1)).2 in
  let w2 :=
    (receive_sensor_data strict_externals (at_time noon_and_a_half) w1
       (reading "a" 2)).2 in
  let r := (get_latest_data (at_time noon_and_one) w2 "a").1 in
  status_of r = 200 /\
  body_lookup r "temperature" = Some (JNum (inject_Z 2)) /\
  body_lookup r "timestamp" = Some (JStr "2024-01-01T12:00:00.500000").
Proof. by_evaluation. Qed.

(** ** Connections *)

(** C6 fails for [save_data].  The identifier has 51 characters, the
    column takes 50: the [INSERT] raises, the [except] clause returns
    [False], and the connection made for the call is still open. *)
Theorem failed_insert_keeps_connection_open :
  let (r, w') :=
    save_data strict_externals (at_time noon) db_world (reading long_id 21) in
  String.length long_id = 51%nat /\
  r = Ret false /\
  open_connections db_world = 0%nat /\
  open_connections w' = 1%nat.
Proof. by_evaluation. Qed.

(** X17.  The calls of [close()] in [save_data]: when it catches an
    exception of the database and returns [False], it has made one
    connection and called [close()] on none; after a commit it has called
    [close()] on the connection it made; and it makes none when
    [psycopg2.connect] itself raises.  ([open_connections] counts the
    connections made less the calls of [close()].) *)
Lemma save_data_connections (ext : externals) (o : oracle) (w : world)
    (data : gmap string value) :
  database_url w = true ->
  let (r, w') := save_data ext o w data in
  open_connections w'
  = match r with
    | Ret false => S (open_connections w)
    | _ => open_connections w
    end.
Proof.
  intros Hurl. unfold save_data, get_db_connection.
  cbn [database_url log_save]. rewrite Hurl.
  destruct (raises o AtConnect); [reflexivity|].
  destruct (insert_reading _ _ _ _ _ _ _ _ _ _) as [w2|] eqn:E;
    [|reflexivity].
  apply insert_reading_frame in E as (_ & E & _).
  unfold conn_close. cbn in *. now rewrite E.
Qed.

(** [get_latest_data] and [init_db] close in [finally]: they leave as
    many connections open as they found. *)
Lemma get_latest_data_connections (o : oracle) (w : world)
    (device_id : string) :
  open_connections (get_latest_data o w device_id).2 = open_connections w.
Proof.
  unfold get_latest_data, get_db_connection.
  destruct (database_url w); [|reflexivity].
  now destruct (raises o AtConnect).
Qed.

Lemma init_db_connections (o : oracle) (w : world) :
  open_connections (init_db o w).2 = open_connections w.
Proof.
  unfold init_db, get_db_connection.
  destruct (database_url w).
  - now destruct (raises o AtConnect).
  - destruct (data_dir w); [reflexivity|]. now destruct (fs_fault o).
Qed.

(** ** Order of the file names *)

(** C7.  File names of one device keep the order of time down to the
    second: when two instants are at least one second apart, the file name
    of the later one is the greater, [max] of the two names in either order
    is the later one, and from a directory that holds the two files the GET
    handler returns the content of the later one. *)
Theorem filename_order_matches_time (device_id : string) (a b : datetime) :
  valid_datetime a -> valid_datetime b ->
  to_micros a + 1000000 <= to_micros b ->
  String.ltb (filename device_id a) (filename device_id b) = true /\
  py_max (filename device_id a) [filename device_id b] = filename device_id b /\
  py_max (filename device_id b) [filename device_id a] = filename device_id b /\
  forall (o : oracle) (w : world) (va vb : value),
    fs_fault o = false ->
    data_dir w
    = Some {[ filename device_id a := va; filename device_id b := vb ]} ->
    read_latest o w device_id = Response vb 200.
Proof.
  intros Ha Hb Hlt.
  pose proof (filename_lt device_id a b Ha Hb Hlt) as Hord.
  set (fa := filename device_id a) in *.
  set (fb := filename device_id b) in *.
  assert (Hne : fa <> fb).
  { intros E. rewrite E, ltb_irrefl in Hord. discriminate. }
  split; [exact Hord|].
  split; [apply (py_max_pair fa fb Hord)|].
  split; [apply (py_max_pair fa fb Hord)|].
  intros o w va vb Hfs Hdir.
  assert (Hb_in : ({[ fa := va; fb := vb ]} : gmap string value) !! fb
                  = Some vb).
  { rewrite lookup_insert_ne by exact Hne. apply lookup_singleton_eq. }
  unfold read_latest. rewrite Hdir, Hfs.
  destruct (filter _ _) as [|f rest] eqn:Efiles.
  - assert (Hin : fb ∈ filter
              (λ f, String.prefix (device_id +:+ "_") f = true)
              (listdir {[ fa := va; fb := vb ]})).
    { apply list_elem_of_filter. split; [apply filename_prefix|].
      apply listdir_spec. eauto. }
    rewrite Efiles in Hin. now apply elem_of_nil in Hin.
  - pose proof (py_max_in rest f) as Hin. rewrite <- Efiles in Hin.
    apply list_elem_of_filter in Hin as [_ Hin].
    apply listdir_spec in Hin as [v Hv].
    assert (Hmax : String.ltb (py_max f rest) fb = false).
    { apply py_max_ge. rewrite <- Efiles.
      apply list_elem_of_filter. split; [apply filename_prefix|].
      apply listdir_spec. eauto. }
    apply lookup_insert_Some in Hv as [[E _] | [_ Hv]].
    + rewrite <- E in Hmax. congruence.
    + apply lookup_singleton_Some in Hv as [E _].
      rewrite <- E. now rewrite Hb_in.
Qed.

Lemma filename_order_matches_time_witness :
  String.ltb (filename "a" noon) (filename "a" noon_and_one) = true
  /\
  py_max (filename "a" noon) [filename "a" noon_and_one]
  = filename "a" noon_and_one /\
  py_max (filename "a" noon_and_one) [filename "a" noon]
  = filename "a" noon_and_one /\
  forall (o : oracle) (w : world) (va vb : value),
    fs_fault o = false ->
    data_dir w
    = Some {[ filename "a" noon := va;
              filename "a" noon_and_one := vb ]} ->
    read_latest o w "a" = Response vb 200.
Proof.
  apply (filename_order_matches_time "a" noon noon_and_one).
  - vm_compute. intuition discriminate.
  - vm_compute. intuition discriminate.
  - now vm_compute.
Defined.

(** ** Records are kept *)

(** C8 fails on the file backend.  Two readings of device [a] are saved
    at the same instant: the second [open(filename, 'w')] truncates the
    file of the first, and the directory holds one file, with the second
    reading. *)
Theorem same_instant_save_overwrites :
  let name := "a_2024-01-01T12-00-00.500000.json" in
  let (r1, w1) :=
    receive_sensor_data strict_externals (at_time noon_and_a_half) file_world
      (reading "a" 1) in
  let (r2, w2) :=
    receive_sensor_data strict_externals (at_time noon_and_a_half) w1
      (reading "a" 2) in
  status_of r1 = 200 /\ status_of r2 = 200 /\
  entries w1 = Some [name] /\
  stored_field w1 name "temperature" = Some (JNum (inject_Z 1)) /\
  entries w2 = Some [name] /\
  stored_field w2 name "temperature" = Some (JNum (inject_Z 2)).
Proof. by_evaluation. Qed.

(** What holds of C8: a save adds at most one row at the end of the
    table and changes no row; when its file name has no slash it leaves
    every file alone but the one it writes. *)
Lemma save_data_keeps_records (ext : externals) (o : oracle) (w : world)
    (data : gmap string value) :
  let w' := (save_data ext o w data).2 in
  (exists added, sensor_data w' = (sensor_data w ++ added)%list /\
                 (length added <= 1)%nat) /\
  forall dir name v,
    data_dir w = Some dir -> dir !! name = Some v ->
    contains_char "/"
      (filename
         (py_format ext (dict_get_or data "device_id" (JStr "unknown")))
         (now_save o)) = false ->
    name <> filename
              (py_format ext (dict_get_or data "device_id" (JStr "unknown")))
              (now_save o) ->
    exists dir', data_dir w' = Some dir' /\ dir' !! name = Some v.
Proof.
  assert (Hsame : forall rows : list row,
            exists added, rows = (rows ++ added)%list /\
                          (length added <= 1)%nat).
  { intros rows. exists []. split; [now rewrite app_nil_r | cbn; lia]. }
  unfold save_data, get_db_connection. cbn [database_url log_save].
  destruct (database_url w).
  - destruct (raises o AtConnect); [split; [apply Hsame | cbn; eauto]|].
    destruct (insert_reading _ _ _ _ _ _ _ _ _ _) as [w2|] eqn:E;
      [|split; [apply Hsame | cbn; eauto]].
    apply insert_reading_frame in E as (_ & _ & Hd & _ & r & Hr & _).
    cbn in *. split; [exists [r]; split; [exact Hr | cbn; lia]|].
    intros dir name v Hdir Hlook _ _. rewrite Hd. eauto.
  - destruct (write_json _ _ _ _) as [w2|] eqn:E;
      [|split; [apply Hsame | cbn; eauto]].
    apply write_json_frame in E as (_ & _ & Hs & _ & dir0 & Hd0 & _ & Hd2).
    cbn in *. split; [rewrite Hs; apply Hsame|].
    intros dir name v Hdir Hlook Hslash Hne. rewrite (Hd2 Hslash).
    eexists. split; [reflexivity|].
    rewrite lookup_insert_ne by congruence. congruence.
Qed.

(** * Further properties of the code *)

(** ** File names and instants *)

Lemma fields_trichotomy (a b : datetime) :
  fields_lt a b \/ fields_lt b a \/
  (year a = year b /\ month a = month b /\ day a = day b /\
   hour a = hour b /\ minute a = minute b /\ second a = second b).
Proof. unfold fields_lt. lia. Qed.

(** Smaller fields make an earlier second. *)
Lemma fields_lt_to_seconds (a b : datetime) :
  valid_datetime a -> valid_datetime b ->
  fields_lt a b -> to_seconds a < to_seconds b.
Proof.
  intros (Hy1 & Hm1 & Hd1 & Hh1 & Hi1 & Hs1 & _)
         (Hy2 & Hm2 & Hd2 & Hh2 & Hi2 & Hs2 & _).
  unfold fields_lt, to_seconds.
  intros [Hy | (Hy & [Hm | (Hm & Hrest)])].
  - pose proof (ymd2ord_year_lt _ _ _ _ _ _ Hm1 Hd1 Hm2 Hd2 Hy). lia.
  - rewrite Hy in *.
    pose proof (ymd2ord_month_lt _ _ _ _ _ Hm1 Hd1 Hm2 Hd2 Hm). lia.
  - rewrite Hy, Hm in *. unfold ymd2ord. lia.
Qed.

(** The first character of a number of at least one digit. *)
Lemma zfill_head (w : nat) : forall (n : Z) (x : string),
  exists k r, 0 <= k < 10 /\ zfill (S w) n +:+ x = String (digit k) r.
Proof.
  induction w as [|w IH]; intros n x.
  - exists (n mod 10), x. split; [apply Z.mod_pos_bound; lia | reflexivity].
  - rewrite zfill_step. apply IH.
Qed.

Lemma digit_lt_j (k : Z) :
  0 <= k < 10 -> Ascii.compare (digit k) "j" = Lt.
Proof.
  intros Hk. unfold Ascii.compare, digit.
  rewrite N_ascii_embedding by lia.
  apply N.compare_lt_iff. cbn. lia.
Qed.

(** A name with microseconds comes before the name of the same second
    without them. *)
Lemma fraction_before_none (n : Z) :
  String.compare (("." +:+ zfill 6 n) +:+ ".json") ("" +:+ ".json") = Lt.
Proof.
  rewrite append_assoc, append_nil_l.
  destruct (zfill_head 5 n ".json") as (k & r & Hk & ->).
  change ("." +:+ String (digit k) r) with (String "." (String (digit k) r)).
  change ".json" with (String "." (String "j" "son")).
  rewrite compare_cons_same. cbn [String.compare].
  now rewrite digit_lt_j.
Qed.

Lemma compare_fraction (a b : datetime) :
  0 <= microsecond a < 1000000 -> 0 <= microsecond b < 1000000 ->
  String.compare (fraction a +:+ ".json") (fraction b +:+ ".json")
  = ((if microsecond a =? 0 then 1000000 else microsecond a)
     ?= (if microsecond b =? 0 then 1000000 else microsecond b)).
Proof.
  intros Ha Hb. unfold fraction.
  destruct (Z.eqb_spec (microsecond a) 0) as [Ea|Ea],
           (Z.eqb_spec (microsecond b) 0) as [Eb|Eb].
  - now rewrite compare_refl, Z.compare_refl.
  - rewrite String.compare_antisym, fraction_before_none. cbn [CompOpp].
    symmetry. apply Z.compare_gt_iff. lia.
  - rewrite fraction_before_none. symmetry. apply Z.compare_lt_iff. lia.
  - rewrite !append_assoc, !append_cons, !append_nil_l, compare_cons_same.
    destruct (Z.lt_trichotomy (microsecond a) (microsecond b))
      as [H | [H | H]].
    + rewrite zfill_lt by (cbn; lia). symmetry. now apply Z.compare_lt_iff.
    + rewrite H, compare_refl. symmetry. apply Z.compare_refl.
    + rewrite String.compare_antisym, zfill_lt by (cbn; lia). cbn [CompOpp].
      symmetry. apply Z.compare_gt_iff. lia.
Qed.

(** File names of one device compare as the ranks of their instants. *)
Lemma compare_filenames (device_id : string) (a b : datetime) :
  valid_datetime a -> valid_datetime b ->
  String.compare (filename device_id a) (filename device_id b)
  = (file_rank a ?= file_rank b).
Proof.
  intros Ha Hb.
  pose proof Ha as (_ & _ & _ & _ & _ & _ & Hua).
  pose proof Hb as (_ & _ & _ & _ & _ & _ & Hub).
  unfold filename. rewrite !compare_append_same.
  assert (Hra : 1 <= (if microsecond a =? 0 then 1000000 else microsecond a)
                  <= 1000000) by (destruct (Z.eqb_spec (microsecond a) 0); lia).
  assert (Hrb : 1 <= (if microsecond b =? 0 then 1000000 else microsecond b)
                  <= 1000000) by (destruct (Z.eqb_spec (microsecond b) 0); lia).
  destruct (fields_trichotomy a b) as [Hlt | [Hgt | Heq]].
  - rewrite (stamp_lt a b _ _ Ha Hb Hlt).
    pose proof (fields_lt_to_seconds a b Ha Hb Hlt).
    symmetry. apply Z.compare_lt_iff. unfold file_rank. lia.
  - rewrite String.compare_antisym, (stamp_lt b a _ _ Hb Ha Hgt).
    pose proof (fields_lt_to_seconds b a Hb Ha Hgt).
    symmetry. apply Z.compare_gt_iff. unfold file_rank. lia.
  - destruct Heq as (Ey & Em & Ed & Eh & Ei & Es).
    assert (Esec : to_seconds a = to_seconds b)
      by (unfold to_seconds; now rewrite Ey, Em, Ed, Eh, Ei, Es).
    rewrite !stamp_fields, Ey, Em, Ed, Eh, Ei, Es.
    rewrite !append_assoc, !compare_append_same.
    rewrite (compare_fraction a b Hua Hub).
    unfold file_rank. rewrite Esec.
    destruct (Z.compare_spec
                (if microsecond a =? 0 then 1000000 else microsecond a)
                (if microsecond b =? 0 then 1000000 else microsecond b))
      as [E | E | E]; symmetry.
    + rewrite E. apply Z.compare_refl.
    + apply Z.compare_lt_iff. lia.
    + apply Z.compare_gt_iff. lia.
Qed.

(** X1.  The file names of one device are ordered as the ranks of their
    instants: by the second, and within one second by the microseconds,
    with the name that has none (microsecond zero) last.  This is the
    order in which the GET handler of the file backend prefers files. *)
Theorem filename_compare_rank (device_id : string) (a b : datetime) :
  valid_datetime a -> valid_datetime b ->
  (String.ltb (filename device_id a) (filename device_id b) = true
   <-> file_rank a < file_rank b).
Proof.
  intros Ha Hb. rewrite ltb_lt, (compare_filenames device_id a b Ha Hb).
  apply Z.compare_lt_iff.
Qed.

Lemma filename_compare_rank_witness :
  String.ltb (filename "a" noon_and_a_half) (filename "a" noon) = true
  <-> file_rank noon_and_a_half < file_rank noon.
Proof.
  apply (filename_compare_rank "a" noon_and_a_half noon);
    vm_compute; intuition discriminate.
Defined.

(** *** One file for one device and instant *)

Lemma length_append (a b : string) :
  String.length (a +:+ b) = (String.length a + String.length b)%nat.
Proof.
  induction a as [|c a IH]; [reflexivity|].
  rewrite append_cons. cbn [String.length]. now rewrite IH.
Qed.

Lemma length_zfill (w : nat) : forall n : Z, String.length (zfill w n) = w.
Proof.
  induction w as [|w IH]; intros n; [reflexivity|].
  cbn [zfill]. rewrite length_append, IH. cbn. lia.
Qed.

(** What follows the identifier in a file name. *)
Lemma filename_tail (device_id : string) (t : datetime) :
  filename device_id t
  = device_id +:+
      String "_"
        (zfill 4 (year t) +:+ "-" +:+ zfill 2 (month t) +:+ "-" +:+
         zfill 2 (day t) +:+ "T" +:+ zfill 2 (hour t) +:+ "-" +:+
         zfill 2 (minute t) +:+ "-" +:+ zfill 2 (second t) +:+
         fraction t +:+ ".json").
Proof.
  unfold filename. rewrite stamp_fields, !append_assoc. reflexivity.
Qed.

Lemma length_tail (t : datetime) :
  String.length
    (String "_"
       (zfill 4 (year t) +:+ "-" +:+ zfill 2 (month t) +:+ "-" +:+
        zfill 2 (day t) +:+ "T" +:+ zfill 2 (hour t) +:+ "-" +:+
        zfill 2 (minute t) +:+ "-" +:+ zfill 2 (second t) +:+
        fraction t +:+ ".json"))
  = if microsecond t =? 0 then 25%nat else 32%nat.
Proof.
  cbn [String.length]. rewrite !length_append, !length_zfill.
  unfold fraction. destruct (microsecond t =? 0); cbn [String.length].
  - reflexivity.
  - rewrite length_append, length_zfill. reflexivity.
Qed.

(** Two ways of cutting one string: the shorter end is the end of the
    longer one. *)
Lemma append_eq_split (a : string) : forall b x y : string,
  a +:+ x = b +:+ y -> (String.length y <= String.length x)%nat ->
  exists p, b = a +:+ p /\ x = p +:+ y.
Proof.
  induction a as [|c a IH]; intros b x y E Hlen.
  - exists b. split; [reflexivity | exact E].
  - destruct b as [|c' b].
    + rewrite append_nil_l, append_cons in E. subst y.
      cbn [String.length] in Hlen. rewrite length_append in Hlen. lia.
    + rewrite !append_cons in E. injection E as <- E.
      destruct (IH b x y E Hlen) as (p & -> & ->).
      exists p. split; reflexivity.
Qed.

Lemma digit_not_underscore (n : Z) : 0 <= n < 10 -> digit n <> "_"%char.
Proof.
  intros Hn E. apply (f_equal N_of_ascii) in E. unfold digit in E.
  rewrite N_ascii_embedding in E by lia. cbn in E. lia.
Qed.

(** The eighth character after the identifier is a digit of the month. *)
Lemma tail_eighth (t : datetime) (rest : string) :
  exists c0 c1 c2 c3 c4 c5 c6 r,
    String "_" (zfill 4 (year t) +:+ "-" +:+ zfill 2 (month t) +:+ rest)
    = String c0 (String c1 (String c2 (String c3 (String c4 (String c5
        (String c6 (String (digit (month t mod 10)) r))))))).
Proof.
  rewrite !zfill_step. cbn [zfill].
  rewrite !append_nil_l, ?append_cons, ?append_nil_l.
  repeat eexists.
Qed.

Lemma underscore_not_at_eighth (t t' : datetime) (p rest rest' : string) :
  String.length p = 7%nat ->
  String "_" (zfill 4 (year t) +:+ "-" +:+ zfill 2 (month t) +:+ rest)
  <> p +:+ String "_" rest'.
Proof.
  intros Hlen E.
  destruct (tail_eighth t rest) as (c0 & c1 & c2 & c3 & c4 & c5 & c6 & r & Et).
  rewrite Et in E. clear Et.
  do 7 (destruct p as [|? p]; [discriminate Hlen|];
        rewrite append_cons in E; injection E as _ E;
        cbn [String.length] in Hlen; apply Nat.succ_inj in Hlen).
  destruct p; [|discriminate Hlen].
  rewrite append_nil_l in E. injection E as E _.
  apply (digit_not_underscore (month t mod 10)); [|exact E].
  apply Z.mod_pos_bound. lia.
Qed.

Lemma append_eq_same_length (a b x y : string) :
  a +:+ x = b +:+ y -> String.length x = String.length y ->
  a = b /\ x = y.
Proof.
  intros E Hlen.
  destruct (append_eq_split a b x y E ltac:(lia)) as (p & -> & Hx).
  assert (Hp : String.length p = 0%nat).
  { apply (f_equal String.length) in Hx. rewrite length_append in Hx. lia. }
  destruct p; [|discriminate Hp].
  split; [|exact Hx].
  clear. induction a as [|c a IH]; [reflexivity|].
  rewrite append_cons. now rewrite <- IH.
Qed.

(** A file name determines the identifier and the instant it was made
    from. *)
Lemma filename_injective (d1 d2 : string) (a b : datetime) :
  valid_datetime a -> valid_datetime b ->
  filename d1 a = filename d2 b -> d1 = d2 /\ a = b.
Proof.
  intros Ha Hb E.
  assert (Hd : d1 = d2).
  { rewrite !filename_tail in E.
    pose proof (length_tail a) as La. pose proof (length_tail b) as Lb.
    destruct (Z.eqb_spec (microsecond a) 0) as [Ea|Ea],
             (Z.eqb_spec (microsecond b) 0) as [Eb|Eb].
    - now apply append_eq_same_length in E as [E _]; [|congruence].
    - symmetry in E.
      apply append_eq_split in E as (p & _ & E); [|lia].
      exfalso. eapply (underscore_not_at_eighth b a p); [|exact E].
      apply (f_equal String.length) in E.
      rewrite length_append in E. lia.
    - apply append_eq_split in E as (p & _ & E); [|lia].
      exfalso. eapply (underscore_not_at_eighth a b p); [|exact E].
      apply (f_equal String.length) in E.
      rewrite length_append in E. lia.
    - now apply append_eq_same_length in E as [E _]; [|congruence]. }
  split; [exact Hd|]. subst d2.
  pose proof (compare_filenames d1 a b Ha Hb) as Hc.
  rewrite E, compare_refl in Hc. symmetry in Hc.
  apply Z.compare_eq_iff in Hc.
  pose proof Ha as (_ & _ & _ & _ & _ & _ & Hua).
  pose proof Hb as (_ & _ & _ & _ & _ & _ & Hub).
  unfold file_rank in Hc.
  assert (Hsec : to_seconds a = to_seconds b /\ microsecond a = microsecond b).
  { destruct (Z.eqb_spec (microsecond a) 0), (Z.eqb_spec (microsecond b) 0);
      lia. }
  destruct Hsec as [Hsec Hus].
  destruct (fields_trichotomy a b) as [Hlt | [Hgt | Heq]].
  - pose proof (fields_lt_to_seconds a b Ha Hb Hlt). lia.
  - pose proof (fields_lt_to_seconds b a Hb Ha Hgt). lia.
  - destruct a, b. cbn in *. intuition congruence.
Qed.

(** X2.  On the file backend a save whose device identifier has no
    slash leaves alone every file that was named for another device or
    another instant: the one file it can replace is that of the same
    device and the same microsecond. *)
Theorem file_kept_unless_same_device_and_instant (ext : externals)
    (o : oracle) (w : world) (data : gmap string value)
    (dir : gmap string value) (d' : string) (t' : datetime) (v : value) :
  valid_datetime t' -> valid_datetime (now_save o) ->
  data_dir w = Some dir -> dir !! filename d' t' = Some v ->
  contains_char "/"
    (filename (py_format ext (dict_get_or data "device_id" (JStr "unknown")))
              (now_save o)) = false ->
  (d', t') <> (py_format ext (dict_get_or data "device_id" (JStr "unknown")),
               now_save o) ->
  exists dir',
    data_dir (save_data ext o w data).2 = Some dir' /\
    dir' !! filename d' t' = Some v.
Proof.
  intros Ht' Hnow Hdir Hlook Hslash Hne.
  unfold save_data, get_db_connection. cbn [database_url log_save].
  destruct (database_url w).
  - destruct (raises o AtConnect); [cbn; eauto|].
    destruct (insert_reading _ _ _ _ _ _ _ _ _ _) as [w2|] eqn:E;
      [|cbn; eauto].
    apply insert_reading_frame in E as (_ & _ & E & _).
    cbn in *. rewrite E. eauto.
  - destruct (write_json _ _ _ _) as [w2|] eqn:E; [|cbn; eauto].
    apply write_json_frame in E as (_ & _ & _ & _ & dir0 & Hd0 & _ & Hd2).
    cbn in *. rewrite (Hd2 Hslash). eexists. split; [reflexivity|].
    rewrite lookup_insert_ne; [congruence|].
    intros Ename. symmetry in Ename.
    apply filename_injective in Ename as [-> ->]; [|assumption..].
    now apply Hne.
Qed.

Lemma file_kept_unless_same_device_and_instant_witness :
  let w :=
    (save_data strict_externals (at_time noon) file_world (reading "a" 1)).2 in
  exists dir',
    data_dir
      (save_data strict_externals (at_time noon_and_a_half) w
         (reading "a" 2)).2 = Some dir' /\
    dir' !! filename "a" noon = Some (JObj (reading "a" 1)).
Proof.
  intros w.
  apply (file_kept_unless_same_device_and_instant strict_externals
           (at_time noon_and_a_half) w (reading "a" 2)
           {[ filename "a" noon := JObj (reading "a" 1) ]}).
  - vm_compute. intuition discriminate.
  - vm_compute. intuition discriminate.
  - reflexivity.
  - apply lookup_singleton_eq.
  - reflexivity.
  - intros E. discriminate E.
Defined.

(** ** What a POST stores *)

(** The row that a successful [INSERT] appends. *)
Lemma insert_reading_row (ext : externals) (o : oracle) (w w' : world)
    (d t h f fd la lo : value) :
  insert_reading ext o w d t h f fd la lo = Some w' ->
  exists cd ct ch cf cfd cla clo,
    to_varchar50 ext d = Some (Some cd) /\
    to_float ext t = Some ct /\ to_float ext h = Some ch /\
    to_float ext f = Some cf /\ to_int ext fd = Some cfd /\
    to_float ext la = Some cla /\ to_float ext lo = Some clo /\
    sensor_data w'
    = (sensor_data w ++
         [Row (next_id w) cd ct ch cf cfd cla clo
              (Some (current_timestamp o))])%list.
Proof.
  unfold insert_reading. intros H.
  destruct (raises o AtCursor || raises o AtExecute); [discriminate|].
  destruct (to_varchar50 ext d) as [[cd|]|]; try discriminate.
  destruct (to_float ext t) as [ct|]; try discriminate.
  destruct (to_float ext h) as [ch|]; try discriminate.
  destruct (to_float ext f) as [cf|]; try discriminate.
  destruct (to_int ext fd) as [cfd|]; try discriminate.
  destruct (to_float ext la) as [cla|]; try discriminate.
  destruct (to_float ext lo) as [clo|]; try discriminate.
  cbn [mbind option_bind] in H.
  destruct (raises o AtCommit); [discriminate|].
  injection H as <-. cbn. eauto 15.
Qed.


(** ** A POST followed by a GET *)

(** The file branch returns the file than whose name no other name of the
    device is greater. *)
Lemma read_latest_max (o : oracle) (w : world) (device_id name : string)
    (dir : gmap string value) (v : value) :
  data_dir w = Some dir -> fs_fault o = false ->
  dir !! name = Some v ->
  String.prefix (device_id +:+ "_") name = true ->
  (forall other,
     is_Some (dir !! other) ->
     String.prefix (device_id +:+ "_") other = true ->
     String.ltb name other = false) ->
  read_latest o w device_id = Response v 200.
Proof.
  intros Hdir Hfs Hlook Hp Hmax. unfold read_latest. rewrite Hdir, Hfs.
  assert (Hin : name ∈ filter
            (λ f, String.prefix (device_id +:+ "_") f = true) (listdir dir)).
  { apply list_elem_of_filter. split; [exact Hp|].
    apply listdir_spec. eauto. }
  destruct (filter _ (listdir dir)) as [|f rest] eqn:Efiles;
    [now apply elem_of_nil in Hin|].
  rewrite (py_max_unique rest f name Hin); [now rewrite Hlook|].
  intros x Hx. rewrite <- Efiles in Hx.
  apply list_elem_of_filter in Hx as [Hpx Hx].
  apply Hmax; [now apply listdir_spec | exact Hpx].
Qed.

(** X4.  Round trip on the file backend.  A payload with the four keys
    and a string identifier is posted; if no file of the device already
    there has a greater name than the one just written, the GET handler
    returns the payload as it was submitted. *)
Theorem post_then_get_file (ext : externals) (o o' : oracle) (w : world)
    (data dir : gmap string value) (d : string) :
  database_url w = false -> data_dir w = Some dir ->
  (forall field, field ∈ required_fields -> is_Some (data !! field)) ->
  data !! "device_id" = Some (JStr d) ->
  fs_fault o = false -> fs_fault o' = false ->
  contains_char "/" (filename d (now_save o)) = false ->
  (forall other,
     is_Some (dir !! other) ->
     String.prefix (d +:+ "_") other = true ->
     String.ltb (filename d (now_save o)) other = false) ->
  let w' := (receive_sensor_data ext o w data).2 in
  status_of (receive_sensor_data ext o w data).1 = 200 /\
  get_latest_data o' w' d = (Response (JObj data) 200, w').
Proof.
  intros Hurl Hdir Hall Hid Hfs Hfs' Hname Hmax w'.
  assert (Hsave : save_data ext o w data
                  = (Ret true,
                     set_data_dir (log_save w data)
                       (Some (<[filename d (now_save o) := JObj data]> dir)))).
  { rewrite (save_data_file ext o w data dir Hurl Hdir Hfs);
      unfold dict_get_or; rewrite Hid; cbn [default py_format];
      [reflexivity | exact Hname]. }
  subst w'. rewrite (receive_valid ext o w data Hall), Hsave.
  cbn [fst snd status_of]. split; [reflexivity|].
  rewrite get_latest_data_file by exact Hurl. f_equal.
  apply read_latest_max
    with (name := filename d (now_save o))
         (dir := <[filename d (now_save o) := JObj data]> dir).
  - reflexivity.
  - exact Hfs'.
  - apply lookup_insert_eq.
  - apply filename_prefix.
  - intros other [v Hv] Hp.
    apply lookup_insert_Some in Hv as [[<- _] | [_ Hv]];
      [apply ltb_irrefl | apply Hmax; eauto].
Qed.

Lemma post_then_get_file_witness :
  let w' :=
    (receive_sensor_data strict_externals (at_time noon) file_world
       (reading "a" 21)).2 in
  status_of
    (receive_sensor_data strict_externals (at_time noon) file_world
       (reading "a" 21)).1 = 200 /\
  get_latest_data (at_time noon_and_one) w' "a"
  = (Response (JObj (reading "a" 21)) 200, w').
Proof.
  apply (post_then_get_file strict_externals (at_time noon)
           (at_time noon_and_one) file_world (reading "a" 21) ∅ "a").
  - reflexivity.
  - reflexivity.
  - intros field Hin. each_field Hin; vm_compute; eauto.
  - reflexivity.
  - reflexivity.
  - reflexivity.
  - reflexivity.
  - intros other [v Hv]. now rewrite lookup_empty in Hv.
Defined.

Lemma select_latest_some (rows : list row) (device_id : string) (r : row) :
  r ∈ rows -> r_device_id r = device_id ->
  is_Some (select_latest rows device_id).
Proof.
  intros Hin Hd. unfold select_latest.
  assert (Hf : r ∈ filter (λ r, r_device_id r = device_id) rows)
    by now apply list_elem_of_filter.
  destruct (filter _ rows); [now apply elem_of_nil in Hf | eauto].
Qed.

(** [null] and a number that a double holds exactly go into a [FLOAT]
    column and come back as they are. *)
Lemma float_round_trip (ext : externals) (v : value) (c : option Q) :
  v = JNull \/ (exists q, v = JNum q /\ exact_double q = true) ->
  to_float ext v = Some c -> of_float c = v.
Proof.
  intros [-> | (q & -> & Hq)]; cbn [to_float]; [|rewrite Hq];
    intros [= <-]; reflexivity.
Qed.

(** A string of at most [n] characters is not cut. *)
Lemma split_chars_short (s : string) : forall n : nat,
  (utf8_length s <= n)%nat -> split_chars n s = (s, EmptyString).
Proof.
  induction s as [|c s IH]; intros n Hlen; [reflexivity|].
  cbn [split_chars utf8_length] in *.
  destruct (continues c).
  - now rewrite IH by lia.
  - destruct n as [|n]; [lia|]. now rewrite IH by lia.
Qed.

(** What the column holds of a string that it took. *)
Lemma varchar50_short (s kept : string) :
  (utf8_length s <= 50)%nat -> varchar50 s = Some kept -> kept = s.
Proof.
  intros Hlen. unfold varchar50.
  destruct (contains_char "000" s); [discriminate|].
  rewrite (split_chars_short s 50 Hlen). cbn. congruence.
Qed.

(** X5.  Round trip on the relational backend.  After a POST answered
    200 for a string identifier of at most 50 characters, when every
    earlier row of the device has an earlier timestamp, the GET handler
    answers 200 with the identifier, the ISO text of the row's timestamp,
    and, under [temperature], [humidity], [flow_rate], [latitude] and
    [longitude], the submitted value whenever that is [null] ([null] also
    standing for a key that was left out) or a number that a double holds
    exactly; [flow_direction] is [null] when it was [null] or left out. *)
Theorem post_then_get_db (ext : externals) (o o' : oracle) (w : world)
    (data : gmap string value) (d : string) :
  database_url w = true ->
  status_of (receive_sensor_data ext o w data).1 = 200 ->
  data !! "device_id" = Some (JStr d) ->
  (utf8_length d <= 50)%nat ->
  (forall r, r ∈ sensor_data w -> r_device_id r = d ->
             timestamp_ltb (r_timestamp r) (Some (current_timestamp o))
             = true) ->
  db_fault o' = None ->
  let g := (get_latest_data o' (receive_sensor_data ext o w data).2 d).1 in
  status_of g = 200 /\
  body_lookup g "device_id" = Some (JStr d) /\
  body_lookup g "timestamp" = Some (JStr (isoformat (current_timestamp o))) /\
  (forall key,
     key ∈ ["temperature"; "humidity"; "flow_rate"; "latitude"; "longitude"] ->
     dict_get data key = JNull \/
     (exists q, dict_get data key = JNum q /\ exact_double q = true) ->
     body_lookup g key = Some (dict_get data key)) /\
  (dict_get data "flow_direction" = JNull ->
   body_lookup g "flow_direction" = Some JNull).
Proof.
  intros Hurl H200 Hid Hlen Hearlier Hfault g. subst g.
  unfold receive_sensor_data in *.
  destruct (forallb _ _); cbn [negb] in *; [|cbn in H200; lia].
  unfold save_data, get_db_connection in *.
  cbn [database_url log_save] in *. rewrite Hurl in *.
  destruct (raises o AtConnect); [cbn in H200; lia|].
  destruct (insert_reading _ _ _ _ _ _ _ _ _ _) as [w2|] eqn:E;
    [|cbn in H200; lia].
  pose proof (insert_reading_frame _ _ _ _ _ _ _ _ _ _ _ E)
    as (Hu2 & _ & _ & _ & _).
  apply insert_reading_row in E
    as (cd & ct & ch & cf & cfd & cla & clo
        & Hcd & Hct & Hch & Hcf & Hcfd & Hcla & Hclo & Hrows).
  cbn [fst snd] in *. cbn in Hrows, Hu2.
  assert (Ecd : cd = d).
  { unfold dict_get_or in Hcd. rewrite Hid in Hcd.
    change (default (JStr "unknown") (Some (JStr d))) with (JStr d) in Hcd.
    unfold to_varchar50 in Hcd. cbn [mbind option_bind] in Hcd.
    destruct (varchar50 d) as [kept|] eqn:Ev; [|discriminate].
    injection Hcd as <-. now apply (varchar50_short d). }
  subst cd.
  set (new := Row (next_id w) d ct ch cf cfd cla clo
                  (Some (current_timestamp o))) in *.
  rewrite get_latest_data_db;
    [|cbn; congruence | unfold raises; now rewrite Hfault].
  assert (Hr : forall s, raises o' s = false).
  { intros s. unfold raises. rewrite Hfault.
    now apply bool_decide_eq_false_2. }
  cbn [fst]. unfold query_latest. rewrite !Hr. cbn [orb].
  unfold conn_close, set_connections. cbn [sensor_data]. rewrite Hrows.
  assert (Hsel : select_latest (sensor_data w ++ [new]) d = Some new).
  { destruct (select_latest_some (sensor_data w ++ [new]) d new)
      as [r Hsome]; [apply elem_of_app; right; constructor | reflexivity |].
    rewrite Hsome. f_equal.
    apply select_latest_spec in Hsome as (Hin & Hd & Hmax).
    apply elem_of_app in Hin as [Hin | Hin];
      [|now apply list_elem_of_singleton in Hin].
    specialize (Hmax new ltac:(apply elem_of_app; right; constructor) eq_refl).
    unfold new in Hmax. cbn [r_timestamp] in Hmax.
    rewrite (Hearlier r Hin Hd) in Hmax. discriminate. }
  rewrite Hsel. cbn [r_timestamp new status_of body_lookup].
  split; [reflexivity|]. split; [reflexivity|]. split; [reflexivity|].
  split.
  - intros key Hkey Hplain.
    repeat (apply elem_of_cons in Hkey as [-> | Hkey]);
      [..|now apply elem_of_nil in Hkey].
    + now rewrite <- (float_round_trip ext _ ct Hplain Hct).
    + now rewrite <- (float_round_trip ext _ ch Hplain Hch).
    + now rewrite <- (float_round_trip ext _ cf Hplain Hcf).
    + now rewrite <- (float_round_trip ext _ cla Hplain Hcla).
    + now rewrite <- (float_round_trip ext _ clo Hplain Hclo).
  - intros Hfd. rewrite Hfd in Hcfd. injection Hcfd as <-. reflexivity.
Qed.

(** A table with an earlier row of the device [a] and a row of another
    device. *)
Lemma post_then_get_db_witness :
  let w :=
    run strict_externals db_world
      [(at_time noon, Post (reading "a" 1));
       (at_time noon_and_a_half, Post (reading "b" 2))] in
  let g :=
    (get_latest_data (at_time noon_and_one)
       (receive_sensor_data strict_externals (at_time noon_and_one) w
          (reading "a" 21)).2 "a").1 in
  status_of g = 200 /\
  body_lookup g "device_id" = Some (JStr "a") /\
  body_lookup g "timestamp" = Some (JStr (isoformat noon_and_one)) /\
  (forall key,
     key ∈ ["temperature"; "humidity"; "flow_rate"; "latitude"; "longitude"] ->
     dict_get (reading "a" 21) key = JNull \/
     (exists q, dict_get (reading "a" 21) key = JNum q /\
                exact_double q = true) ->
     body_lookup g key = Some (dict_get (reading "a" 21) key)) /\
  (dict_get (reading "a" 21) "flow_direction" = JNull ->
   body_lookup g "flow_direction" = Some JNull).
Proof.
  intros w.
  apply (post_then_get_db strict_externals (at_time noon_and_one)
           (at_time noon_and_one) w (reading "a" 21) "a").
  - reflexivity.
  - vm_compute. reflexivity.
  - reflexivity.
  - vm_compute. lia.
  - intros r Hin Hd.
    assert (Hrows : exists r2,
              sensor_data w
              = [Row 1 "a" (Some (inject_Z 1)) (Some (inject_Z 40))
                     (Some (inject_Z 2)) None None None (Some noon); r2] /\
              r_device_id r2 = "b").
    { eexists. split; vm_compute; reflexivity. }
    destruct Hrows as (r2 & Hrows & Hb). rewrite Hrows in Hin.
    apply elem_of_cons in Hin as [-> | Hin]; [reflexivity|].
    apply list_elem_of_singleton in Hin as ->. rewrite Hb in Hd.
    discriminate.
  - reflexivity.
Defined.

(** ** Answers of the GET handler *)

Lemma raises_true (o : oracle) (s : db_step) :
  raises o s = true -> db_fault o = Some s.
Proof. unfold raises. apply bool_decide_eq_true_1. Qed.

(** The failures that a GET can meet. *)
Lemma get_quiet (o : oracle) :
  (db_fault o = None \/ db_fault o = Some AtCommit) <->
  raises o AtConnect = false /\ raises o AtCursor = false /\
  raises o AtExecute = false /\ raises o AtFetch = false.
Proof.
  unfold raises. destruct (db_fault o) as [[| | | |]|]; cbn;
    intuition discriminate.
Qed.

(** X6.  The GET handler answers 404 exactly when nothing fails and
    nothing matches: on the relational backend no call on the database
    raises and the table has no row of the device; on the file backend
    the directory exists, the file system does not fail and no file name
    starts with the identifier and an underscore. *)
Theorem not_found_iff (o : oracle) (w : world) (device_id : string) :
  status_of (get_latest_data o w device_id).1 = 404 <->
  (database_url w = true /\
   (db_fault o = None \/ db_fault o = Some AtCommit) /\
   forall r, r ∈ sensor_data w -> r_device_id r <> device_id)
  \/
  (database_url w = false /\ fs_fault o = false /\
   exists dir, data_dir w = Some dir /\
     forall name, is_Some (dir !! name) ->
                  String.prefix (device_id +:+ "_") name = false).
Proof.
  unfold get_latest_data, get_db_connection.
  destruct (database_url w) eqn:Hurl.
  - rewrite get_quiet.
    destruct (raises o AtConnect); cbn [fst status_of];
      [split; [lia | intros [(_ & (H & _) & _) | (H & _)]; discriminate]|].
    unfold query_latest.
    destruct (raises o AtCursor); cbn [orb status_of error_body];
      [split; [lia | intros [(_ & (_ & H & _) & _) | (H & _)]; discriminate]|].
    destruct (raises o AtExecute); cbn [orb status_of error_body];
      [split; [lia | intros [(_ & (_ & _ & H & _) & _) | (H & _)];
                     discriminate]|].
    destruct (raises o AtFetch); cbn [orb status_of error_body];
      [split; [lia | intros [(_ & (_ & _ & _ & H) & _) | (H & _)];
                     discriminate]|].
    cbn [sensor_data set_connections].
    destruct (select_latest (sensor_data w) device_id) as [r|] eqn:Hsel.
    + split.
      { destruct (r_timestamp r); cbn; lia. }
      intros [(_ & _ & Hnone) | (H & _)]; [|discriminate].
      now rewrite select_latest_none in Hsel.
    + split; [|reflexivity]. intros _. left.
      split; [reflexivity|]. split; [auto|].
      intros r Hin Hd.
      destruct (select_latest_some _ _ r Hin Hd) as [r' Hr'].
      congruence.
  - cbn [fst]. split.
    + intros H404. right. split; [reflexivity|].
      unfold read_latest in H404.
      destruct (data_dir w) as [dir|]; [|cbn in H404; lia].
      destruct (fs_fault o); [cbn in H404; lia|].
      split; [reflexivity|]. exists dir. split; [reflexivity|].
      intros name Hsome.
      destruct (String.prefix (device_id +:+ "_") name) eqn:Hp;
        [|reflexivity].
      assert (Hin : name ∈ filter
                (λ f, String.prefix (device_id +:+ "_") f = true)
                (listdir dir)).
      { apply list_elem_of_filter. split; [exact Hp|].
        now apply listdir_spec. }
      destruct (filter _ (listdir dir)) as [|f rest];
        [now apply elem_of_nil in Hin|].
      destruct (dir !! py_max f rest); cbn in H404; lia.
    + intros [(H & _) | (_ & Hfs & dir & Hdir & Hnone)]; [discriminate|].
      now rewrite (read_latest_404 o w device_id dir Hdir Hfs Hnone).
Qed.

(** X7.  The GET handler only reads: whatever fails, it leaves the table,
    the directory and the number of open connections as they were, and
    its status is 200, 404 or 500. *)
Theorem get_latest_data_read_only (o : oracle) (w : world)
    (device_id : string) :
  (get_latest_data o w device_id).2 = w /\
  (status_of (get_latest_data o w device_id).1 = 200 \/
   status_of (get_latest_data o w device_id).1 = 404 \/
   status_of (get_latest_data o w device_id).1 = 500).
Proof.
  split; [apply get_latest_data_world|].
  unfold get_latest_data, get_db_connection.
  destruct (database_url w).
  - destruct (raises o AtConnect); cbn [fst status_of]; [auto|].
    unfold query_latest.
    destruct (_ || _); cbn; [auto|].
    destruct (select_latest _ _) as [r|]; cbn; [|auto].
    destruct (r_timestamp r); cbn; auto.
  - cbn [fst]. unfold read_latest.
    destruct (data_dir w) as [dir|]; cbn; [|auto].
    destruct (fs_fault o); cbn; [auto|].
    destruct (filter _ _) as [|f rest]; cbn; [auto|].
    destruct (dir !! py_max f rest); cbn; auto.
Qed.

(** ** Start of the process *)

(** X8.  [before_first_request] raises in two cases only, and then
    changes nothing: [DATABASE_URL] is set and [psycopg2.connect] raises
    (the connection is made outside the [try]), or it is not set, the
    directory is missing and it cannot be made.  A failure of the
    [CREATE TABLE] statement is caught. *)
Theorem startup_raises_iff (o : oracle) (w : world) :
  ((before_first_request o w).1 = Raise <->
   (database_url w = true /\ db_fault o = Some AtConnect) \/
   (database_url w = false /\ data_dir w = None /\ fs_fault o = true))
  /\
  ((before_first_request o w).1 = Raise -> (before_first_request o w).2 = w).
Proof.
  unfold before_first_request, init_db, get_db_connection.
  destruct (database_url w).
  - destruct (raises o AtConnect) eqn:Hc; cbn [fst snd].
    + apply raises_true in Hc. intuition.
    + split; [|discriminate]. split; [discriminate|].
      intros [(_ & H) | (H & _)]; [|discriminate].
      unfold raises in Hc. rewrite H in Hc. discriminate.
  - destruct (data_dir w); cbn [fst snd];
      [split; [|discriminate]; split;
       [discriminate | intros [(H & _) | (_ & H & _)]; discriminate]|].
    destruct (fs_fault o); cbn [fst snd].
    + intuition.
    + split; [|discriminate]. split; [discriminate|].
      intros [(H & _) | (_ & _ & H)]; discriminate.
Qed.

(** X9.  [init_db] is idempotent and keeps what is there: when it returns,
    the rows of the table and the files of an existing directory are as
    before, no connection is left open, the file backend has its
    directory, and a second run changes nothing. *)
Theorem init_db_idempotent (o o' : oracle) (w : world) :
  (init_db o w).1 = Ret tt ->
  raises o' AtConnect = false ->
  let w1 := (init_db o w).2 in
  sensor_data w1 = sensor_data w /\
  open_connections w1 = open_connections w /\
  (forall dir, data_dir w = Some dir -> data_dir w1 = Some dir) /\
  (database_url w = false -> is_Some (data_dir w1)) /\
  init_db o' w1 = (Ret tt, w1).
Proof.
  intros Hret Hc' w1. subst w1.
  unfold init_db, get_db_connection in *.
  destruct (database_url w) eqn:Hurl.
  - destruct (raises o AtConnect); [discriminate|].
    assert (Hw : conn_close (set_connections w (S (open_connections w))) = w)
      by now destruct w.
    cbn [snd]. rewrite Hw, Hurl, Hc', Hw.
    split; [reflexivity|]. split; [reflexivity|]. split; [auto|].
    split; [discriminate | reflexivity].
  - destruct (data_dir w) as [dir|] eqn:Hdir.
    + cbn [snd]. rewrite Hurl, Hdir.
      split; [reflexivity|]. split; [reflexivity|]. split; [auto|].
      split; [eauto | reflexivity].
    + destruct (fs_fault o); [discriminate|].
      cbn [snd]. unfold set_data_dir.
      cbn [database_url sensor_data open_connections data_dir].
      rewrite Hurl.
      split; [reflexivity|]. split; [reflexivity|]. split; [discriminate|].
      split; [eauto | reflexivity].
Qed.

Lemma init_db_idempotent_witness :
  let w1 :=
    (init_db (at_time noon) (World false [] 1 0 None [])).2 in
  sensor_data w1 = [] /\
  open_connections w1 = 0%nat /\
  (forall dir, (None : option (gmap string value)) = Some dir ->
               data_dir w1 = Some dir) /\
  (false = false -> is_Some (data_dir w1)) /\
  init_db (at_time noon_and_one) w1 = (Ret tt, w1).
Proof.
  apply (init_db_idempotent (at_time noon) (at_time noon_and_one)
           (World false [] 1 0 None [])); reflexivity.
Defined.

(** ** Nothing is deleted *)

Lemma save_data_grows (ext : externals) (o : oracle) (w : world)
    (data : gmap string value) :
  let w' := (save_data ext o w data).2 in
  database_url w' = database_url w /\
  (exists added, sensor_data w' = (sensor_data w ++ added)%list) /\
  (exists more, save_calls w' = (save_calls w ++ more)%list) /\
  forall dir name,
    data_dir w = Some dir -> is_Some (dir !! name) ->
    exists dir', data_dir w' = Some dir' /\ is_Some (dir' !! name).
Proof.
  cbv zeta. split; [|split; [|split]].
  - unfold save_data, get_db_connection. cbn [database_url log_save].
    destruct (database_url w) eqn:Hurl.
    + destruct (raises o AtConnect); [exact Hurl|].
      destruct (insert_reading _ _ _ _ _ _ _ _ _ _) as [w2|] eqn:E;
        [|exact Hurl].
      apply insert_reading_frame in E as (E & _). cbn in *. congruence.
    + destruct (write_json _ _ _ _) as [w2|] eqn:E; [|exact Hurl].
      apply write_json_frame in E as (E & _). cbn in *. congruence.
  - destruct (save_data_keeps_records ext o w data) as [(added & H & _) _].
    eauto.
  - exists [data]. apply save_data_logged.
  - intros dir name Hdir [v Hv].
    unfold save_data, get_db_connection. cbn [database_url log_save].
    destruct (database_url w).
    + destruct (raises o AtConnect); [cbn; eauto|].
      destruct (insert_reading _ _ _ _ _ _ _ _ _ _) as [w2|] eqn:E;
        [|cbn; eauto].
      apply insert_reading_frame in E as (_ & _ & E & _).
      cbn in *. rewrite E. eauto.
    + destruct (write_json _ _ _ _) as [w2|] eqn:E; [|cbn; eauto].
      apply write_json_frame
        in E as (_ & _ & _ & _ & dir0 & Hd0 & [Hd2 | (e & Hd2)] & _);
        cbn in *; rewrite Hd2; assert (dir0 = dir) as -> by congruence;
        [eauto|].
      eexists. split; [reflexivity|].
      rewrite lookup_insert. destruct (decide _); eauto.
Qed.

(** X10.  No sequence of requests deletes anything or changes the
    backend: after it the process has the same [DATABASE_URL], the table
    is the earlier table with rows added at its end, and every file name
    that was in the directory is still there. *)
Theorem run_never_deletes (ext : externals)
    (qs : list (oracle * request)) : forall w : world,
  database_url (run ext w qs) = database_url w /\
  (exists added,
     sensor_data (run ext w qs) = (sensor_data w ++ added)%list) /\
  (exists more, save_calls (run ext w qs) = (save_calls w ++ more)%list) /\
  forall dir name,
    data_dir w = Some dir -> is_Some (dir !! name) ->
    exists dir', data_dir (run ext w qs) = Some dir' /\
                 is_Some (dir' !! name).
Proof.
  induction qs as [|[o q] qs IH]; intros w; cbn [run].
  - split; [reflexivity|].
    split; [exists []; now rewrite app_nil_r|].
    split; [exists []; now rewrite app_nil_r | eauto].
  - assert (Hstep :
      let w' := (serve ext o w q).2 in
      database_url w' = database_url w /\
      (exists added, sensor_data w' = (sensor_data w ++ added)%list) /\
      (exists more, save_calls w' = (save_calls w ++ more)%list) /\
      forall dir name,
        data_dir w = Some dir -> is_Some (dir !! name) ->
        exists dir', data_dir w' = Some dir' /\ is_Some (dir' !! name)).
    { destruct q as [data|device_id]; cbn [serve].
      - unfold receive_sensor_data.
        destruct (forallb _ _); cbn [negb].
        + pose proof (save_data_grows ext o w data) as H.
          now destruct (save_data ext o w data) as [[[|]|] w1].
        + cbn [snd]. split; [reflexivity|].
          split; [exists []; now rewrite app_nil_r|].
          split; [exists []; now rewrite app_nil_r | eauto].
      - rewrite get_latest_data_world. split; [reflexivity|].
        split; [exists []; now rewrite app_nil_r|].
        split; [exists []; now rewrite app_nil_r | eauto]. }
    cbv zeta in Hstep.
    destruct Hstep as (Hu & (a1 & Ha1) & (m1 & Hm1) & Hf1).
    destruct (IH (serve ext o w q).2) as (Hu2 & (a2 & Ha2) & (m2 & Hm2) & Hf2).
    split; [congruence|].
    split; [exists (a1 ++ a2)%list; now rewrite Ha2, Ha1, app_assoc|].
    split; [exists (m1 ++ m2)%list; now rewrite Hm2, Hm1, app_assoc|].
    intros dir name Hdir Hsome.
    destruct (Hf1 dir name Hdir Hsome) as (dir1 & Hdir1 & Hsome1).
    exact (Hf2 dir1 name Hdir1 Hsome1).
Qed.

(** ** Identifiers the table refuses, and the missing identifier *)

(** X11.  On the relational backend a payload that has the four keys but
    whose [device_id] the column refuses is answered 500 with
    ["Failed to save data"]: [null] (the column is [NOT NULL]), or a
    string that [VARCHAR(50)] does not take, one with a NUL character or
    with more than 50 characters of which those in excess are not all
    spaces.  No row is stored, and the handler returns without a call of
    [close()] on the connection it made. *)
Theorem refused_device_id_is_500 (ext : externals) (o : oracle) (w : world)
    (data : gmap string value) :
  database_url w = true -> raises o AtConnect = false ->
  (forall field, field ∈ required_fields -> is_Some (data !! field)) ->
  data !! "device_id" = Some JNull \/
  (exists s, data !! "device_id" = Some (JStr s) /\ varchar50 s = None) ->
  let (r, w') := receive_sensor_data ext o w data in
  r = Response (JObj {[ "error" := JStr "Failed to save data" ]}) 500 /\
  sensor_data w' = sensor_data w /\
  open_connections w' = S (open_connections w).
Proof.
  intros Hurl Hc Hall Hid.
  rewrite (receive_valid ext o w data Hall).
  unfold save_data, get_db_connection. cbn [database_url log_save].
  rewrite Hurl, Hc.
  assert (Hnone : forall w1 t h f fd la lo,
            insert_reading ext o w1
              (dict_get_or data "device_id" (JStr "unknown"))
              t h f fd la lo = None).
  { assert (Hcol : to_varchar50 ext
                     (dict_get_or data "device_id" (JStr "unknown"))
                   = Some None \/
                   to_varchar50 ext
                     (dict_get_or data "device_id" (JStr "unknown")) = None).
    { unfold dict_get_or.
      destruct Hid as [-> | (s & -> & Hs)]; [left; reflexivity | right].
      change (default (JStr "unknown") (Some (JStr s))) with (JStr s).
      unfold to_varchar50. cbn [mbind option_bind]. now rewrite Hs. }
    intros. unfold insert_reading.
    destruct (raises o AtCursor || raises o AtExecute); [reflexivity|].
    destruct Hcol as [-> | ->]; reflexivity. }
  rewrite Hnone. cbn. repeat split; reflexivity.
Qed.

(** The excess of a string does not have to be long: one character that
    is not a space is enough, and 50 spaces in excess are not. *)
Lemma varchar50_samples :
  utf8_length long_id = 51%nat /\ varchar50 long_id = None /\
  varchar50 "a                                                  "
  = Some "a                                                 " /\
  utf8_length "ééééééééééééééééééééééééééééééééééééééééééééééééé" = 49%nat.
Proof. by_evaluation. Qed.

Lemma refused_device_id_is_500_witness :
  let (r, w') :=
    receive_sensor_data strict_externals (at_time noon) db_world
      (reading long_id 21) in
  r = Response (JObj {[ "error" := JStr "Failed to save data" ]}) 500 /\
  sensor_data w' = sensor_data db_world /\
  open_connections w' = S (open_connections db_world).
Proof.
  apply (refused_device_id_is_500 strict_externals (at_time noon) db_world
           (reading long_id 21)).
  - reflexivity.
  - reflexivity.
  - intros field Hin. each_field Hin; vm_compute; eauto.
  - right. exists long_id. split; reflexivity.
Defined.

(** X12.  [save_data] called with a payload that has no [device_id] files
    it under the identifier [unknown]: the file backend writes
    [unknown_<instant>.json], the relational backend, when the insert goes
    through, appends a row whose [device_id] is [unknown]. *)
Theorem save_data_unknown_device (ext : externals) (o : oracle) (w : world)
    (data : gmap string value) :
  data !! "device_id" = None ->
  (forall dir,
     database_url w = false -> data_dir w = Some dir ->
     fs_fault o = false ->
     contains_char "/" (filename "unknown" (now_save o)) = false ->
     (save_data ext o w data).1 = Ret true /\
     data_dir (save_data ext o w data).2
     = Some (<[filename "unknown" (now_save o) := JObj data]> dir))
  /\
  (database_url w = true ->
   (save_data ext o w data).1 = Ret true ->
   exists r,
     sensor_data (save_data ext o w data).2 = (sensor_data w ++ [r])%list /\
     r_device_id r = "unknown").
Proof.
  intros Hid. split.
  - intros dir Hurl Hdir Hfs Hname.
    rewrite (save_data_file ext o w data dir Hurl Hdir Hfs);
      unfold dict_get_or; rewrite Hid; cbn [default py_format];
      [split; reflexivity | exact Hname].
  - intros Hurl. unfold save_data, get_db_connection.
    cbn [database_url log_save]. rewrite Hurl.
    destruct (raises o AtConnect); [discriminate|].
    destruct (insert_reading _ _ _ _ _ _ _ _ _ _) as [w2|] eqn:E;
      [|discriminate].
    intros _.
    apply insert_reading_row in E
      as (cd & ct & ch & cf & cfd & cla & clo & Hcd & _ & _ & _ & _ & _ & _
          & Hrows).
    unfold dict_get_or in Hcd. rewrite Hid in Hcd. cbn in Hcd.
    injection Hcd as <-. cbn in *. eauto.
Qed.

Lemma save_data_unknown_device_witness :
  (forall dir,
     database_url file_world = false -> data_dir file_world = Some dir ->
     fs_fault (at_time noon) = false ->
     contains_char "/" (filename "unknown" (now_save (at_time noon))) = false ->
     (save_data strict_externals (at_time noon) file_world
        (delete "device_id" (reading "a" 21))).1 = Ret true /\
     data_dir
       (save_data strict_externals (at_time noon) file_world
          (delete "device_id" (reading "a" 21))).2
     = Some (<[filename "unknown" (now_save (at_time noon))
               := JObj (delete "device_id" (reading "a" 21))]> dir))
  /\
  (database_url file_world = true ->
   (save_data strict_externals (at_time noon) file_world
      (delete "device_id" (reading "a" 21))).1 = Ret true ->
   exists r,
     sensor_data
       (save_data strict_externals (at_time noon) file_world
          (delete "device_id" (reading "a" 21))).2
     = (sensor_data file_world ++ [r])%list /\
     r_device_id r = "unknown").
Proof.
  apply (save_data_unknown_device strict_externals (at_time noon) file_world
           (delete "device_id" (reading "a" 21))).
  reflexivity.
Defined.

(** ** The health check *)



(** ** The order of the listing *)

(** X14.  The file that the GET handler picks does not depend on the
    order in which [os.listdir] gives the names; the handler answers 404
    when there is none and otherwise with the content of that file. *)
Theorem latest_file_order (device_id : string) :
  (forall names names' : list string,
     names ≡ₚ names' ->
     latest_file device_id names = latest_file device_id names')
  /\
  (forall (o : oracle) (w : world) (dir : gmap string value),
     data_dir w = Some dir -> fs_fault o = false ->
     read_latest o w device_id
     = match latest_file device_id (listdir dir) with
       | None =>
           Response (JObj {[ "error" := JStr "No data found for device" ]}) 404
       | Some f =>
           match dir !! f with
           | Some data => Response data 200
           | None =>
               Response (JObj {[ "error" := JStr "Error retrieving data" ]}) 500
           end
       end).
Proof.
  split.
  - intros names names' Hperm. unfold latest_file.
    assert (Hf : filter (λ f, String.prefix (device_id +:+ "_") f = true) names
                 ≡ₚ filter (λ f, String.prefix (device_id +:+ "_") f = true)
                      names')
      by now rewrite Hperm.
    destruct (filter _ names) as [|f rest], (filter _ names') as [|f' rest'].
    + reflexivity.
    + now apply Permutation_nil_cons in Hf.
    + symmetry in Hf. now apply Permutation_nil_cons in Hf.
    + f_equal. now apply py_max_order.
  - intros o w dir Hdir Hfs. unfold read_latest, latest_file.
    rewrite Hdir, Hfs. now destruct (filter _ (listdir dir)).
Qed.

(** ** Witnesses of the properties stated earlier *)

(** A table with two rows of the device [a], the later one inserted
    last, and between them a row of the device [b]. *)
Lemma db_returns_latest_witness :
  let w :=
    run strict_externals db_world
      [(at_time noon, Post (reading "a" 1));
       (at_time noon_and_a_half, Post (reading "b" 2));
       (at_time noon_and_one, Post (reading "a" 21))] in
  let body := body_of (get_latest_data (at_time noon_and_one) w "a").1 in
  (r_device_id <$> sensor_data w = ["a"; "b"; "a"] /\
   body_lookup (Response body 200) "temperature"
   = Some (JNum (inject_Z 21))) /\
  exists r t,
    r ∈ sensor_data w /\ r_device_id r = "a" /\
    r_timestamp r = Some t /\
    (forall r', r' ∈ sensor_data w -> r_device_id r' = "a" ->
                timestamp_ltb (r_timestamp r) (r_timestamp r') = false) /\
    body_lookup (Response body 200) "temperature"
    = Some (of_float (r_temperature r)) /\
    body_lookup (Response body 200) "humidity"
    = Some (of_float (r_humidity r)) /\
    body_lookup (Response body 200) "flow_rate"
    = Some (of_float (r_flow_rate r)).
Proof.
  intros w body. split; [by_evaluation|].
  apply (db_returns_latest (at_time noon_and_one) w
           (get_latest_data (at_time noon_and_one) w "a").2 "a" body).
  - reflexivity.
  - vm_compute. reflexivity.
Defined.


Lemma save_data_connections_witness :
  let (r, w') :=
    save_data strict_externals (at_time noon) db_world (reading long_id 21) in
  open_connections w'
  = match r with
    | Ret false => S (open_connections db_world)
    | _ => open_connections db_world
    end.
Proof.
  apply (save_data_connections strict_externals (at_time noon) db_world
           (reading long_id 21)).
  reflexivity.
Defined.
